(** * youtube-summary-ollama: the transcript cleaner and the run of [main.py]

    A shallow embedding of [src/main.py].  Python [str] values are lists of
    Unicode code points; the interpreter, the file system and the external
    programs ([yt-dlp], [ollama]) form an explicit world that every effectful
    function threads through an exception-and-state monad.

    The run is single-threaded and nothing interrupts it; writing to the
    terminal does not fail. *)

From Stdlib Require Import NArith ZArith String Ascii List DecimalString.
From stdpp Require Import gmap strings list.

Local Open Scope N_scope.

(** ** Text *)

(** A Python [str]: the sequence of its code points. *)
Abbreviation text := (list N).

(** A string literal of the source, all of them ASCII, as a [str]. *)
Definition txt (s : string) : text :=
  map N_of_ascii (list_ascii_of_string s).

Definition LF : N := 0x0A.
Definition CR : N := 0x0D.

(** [str.isspace] on one code point, the set [str.strip()] removes: the
    characters of bidirectional type WS, B or S and of category Zs.  The set
    has not changed since Unicode 6.3. *)
Definition isspace (c : N) : bool :=
  ((0x09 <=? c) && (c <=? 0x0D)) || ((0x1C <=? c) && (c <=? 0x20))
  || (c =? 0x85) || (c =? 0xA0) || (c =? 0x1680)
  || ((0x2000 <=? c) && (c <=? 0x200A))
  || (c =? 0x2028) || (c =? 0x2029) || (c =? 0x202F) || (c =? 0x205F)
  || (c =? 0x3000).

Fixpoint lstrip (s : text) : text :=
  match s with
  | c :: r => if isspace c then lstrip r else s
  | [] => []
  end.

Fixpoint rstrip (s : text) : text :=
  match s with
  | [] => []
  | c :: r =>
      match rstrip r with
      | [] => if isspace c then [] else [c]
      | r' => c :: r'
      end
  end.

(** [s.strip()] *)
Definition strip (s : text) : text := rstrip (lstrip s).

(** [sep.join(parts)] *)
Fixpoint join (sep : text) (parts : list text) : text :=
  match parts with
  | [] => []
  | [p] => p
  | p :: ps => p ++ sep ++ join sep ps
  end.

(** Decimal rendering of an integer inside an f-string. *)
Definition str_of_Z (z : Z) : text :=
  txt (NilZero.string_of_int (Z.to_int z)).

(** ** Reading a text file

    [open(filename, 'r', encoding='utf-8')] opens the file with universal
    newlines: on input [\r\n] and a lone [\r] become [\n]. *)
Fixpoint universal_newlines (s : text) : text :=
  match s with
  | [] => []
  | c :: r =>
      if c =? CR then
        match r with
        | c' :: r' => if c' =? LF then LF :: universal_newlines r'
                      else LF :: universal_newlines r
        | [] => [LF]
        end
      else c :: universal_newlines r
  end.

(** Splits at [\n], every line keeping its terminator; the last line has
    none when the text does not end with one. *)
Fixpoint keepends (s : text) : list text :=
  match s with
  | [] => []
  | c :: r =>
      if c =? LF then [LF] :: keepends r
      else match keepends r with
           | [] => [[c]]
           | l :: ls => (c :: l) :: ls
           end
  end.

(** The lines [readlines()] gives for a file of this content. *)
Definition readlines (content : text) : list text :=
  keepends (universal_newlines content).

(** ** Regular expressions

    The part of Python's [re] that the three patterns of [clean_srt_file]
    use: a pattern is a sequence of anchors and of greedily repeated
    one-character classes, matched by backtracking. *)

Inductive cset :=
  | Lit (c : N)       (* the character itself *)
  | NotLit (c : N)    (* [^c] *)
  | Digit.            (* \d *)

Inductive item :=
  | Bol                                           (* ^ *)
  | Eol                                           (* $ *)
  | Rep (cs : cset) (lo : nat) (hi : option nat). (* cs{lo,hi}, greedy *)

Abbreviation regex := (list item).

Definition chr (a : ascii) : item := Rep (Lit (N_of_ascii a)) 1 (Some 1%nat).
Definition digits (n : nat) : item := Rep Digit n (Some n).

(** [$] without MULTILINE: the end of the string, or just before a newline
    that ends the string. *)
Definition at_eol (s : text) : bool :=
  match s with
  | [] => true
  | [c] => c =? LF
  | _ => false
  end.

(** Greedy repetition: takes as many characters of the class as [hi] allows,
    then gives them back one at a time until the continuation [k] matches;
    fewer than [lo] is no match.  The result is the text left after the
    match. *)
Fixpoint greedy (mem : N → bool) (lo : nat) (hi : option nat)
    (k : text → option text) (s : text) : option text :=
  let stop := match lo with O => k s | S _ => None end in
  match s with
  | c :: r =>
      if mem c && negb (bool_decide (hi = Some O)) then
        match greedy mem (pred lo) (pred <$> hi) k r with
        | Some rest => Some rest
        | None => stop
        end
      else stop
  | [] => stop
  end.

(** ** The world of a run

    The file system holds regular files.  A file is the text its bytes
    decode to as UTF-8, or bytes that do not decode; it may carry the
    immutable attribute, under which the system refuses to write, rename or
    unlink it.  The host is POSIX: [os.linesep] is [\n], so text is written
    as it is. *)

Inductive fdata :=
  | Text (t : text)
  | Garbled (size : positive).   (* bytes that are not UTF-8 *)

Record file := File { data : fdata; immutable : bool }.

Record world := World {
  fs : gmap string file;     (* the working directory *)
  path : gset string;        (* the executables found on PATH *)
  stdin : list text;         (* the lines [input] has yet to read *)
  stdout : list text;        (* what the process has printed, in order *)
}.

Definition set_fs (m : gmap string file) (w : world) : world :=
  World m (path w) (stdin w) (stdout w).

(** The world after [out] has been printed. *)
Definition printed (out : list text) (w : world) : world :=
  World (fs w) (path w) (stdin w) (stdout w ++ out).

(** Number of bytes of the UTF-8 encoding. *)
Definition utf8_width (c : N) : N :=
  if c <? 0x80 then 1 else if c <? 0x800 then 2
  else if c <? 0x10000 then 3 else 4.

Definition size_of (d : fdata) : N :=
  match d with
  | Text t => foldr (λ c n, utf8_width c + n) 0 t
  | Garbled n => Npos n
  end.

(** ** Exceptions and the monad of effects *)

Inductive exn :=
  | FileNotFoundError
  | PermissionError
  | UnicodeDecodeError
  | EOFError
  | TimeoutExpired
  | CalledProcessError (returncode : Z) (cmd : list text) (out err : text)
  | OtherException            (* any other subclass of Exception *)
  | CommandError (msg : text)
  | SystemExit (code : Z).

(** [OSError], of which [IOError] is an alias. *)
Definition is_OSError (e : exn) : bool :=
  match e with
  | FileNotFoundError | PermissionError => true
  | _ => false
  end.

(** [Exception]: everything but [SystemExit]. *)
Definition is_Exception (e : exn) : bool :=
  match e with
  | SystemExit _ => false
  | _ => true
  end.

(** [str(e)].  The interpreter's own wording for a built-in exception is
    stood for by the name of its class. *)
Definition str_of_exn (e : exn) : text :=
  match e with
  | CommandError msg => msg
  | SystemExit code => str_of_Z code
  | FileNotFoundError => txt "FileNotFoundError"
  | PermissionError => txt "PermissionError"
  | UnicodeDecodeError => txt "UnicodeDecodeError"
  | EOFError => txt "EOFError"
  | TimeoutExpired => txt "TimeoutExpired"
  | CalledProcessError _ _ _ _ => txt "CalledProcessError"
  | OtherException => txt "Exception"
  end.

Inductive result (A : Type) :=
  | Return (a : A)
  | Raise (e : exn).
Arguments Return {A} a.
Arguments Raise {A} e.

Definition M (A : Type) : Type := world → result A * world.

Definition ret {A} (a : A) : M A := λ w, (Return a, w).

Definition raise {A} (e : exn) : M A := λ w, (Raise e, w).

Definition bind {A B} (m : M A) (k : A → M B) : M B :=
  λ w, match m w with
       | (Return a, w') => k a w'
       | (Raise e, w') => (Raise e, w')
       end.

Notation "'let*' x ':=' m 'in' k" := (bind m (λ x, k))
  (at level 10, x name, m at level 100, k at level 200,
   format "'[v' 'let*'  x  ':='  m  'in' '/' k ']'").
Notation "m ';;;' k" := (bind m (λ _, k))
  (at level 100, k at level 200, right associativity,
   format "'[v' m  ';;;' '/' k ']'").

(** [try: body except ...]: [handlers e] is the clause that catches [e],
    if there is one. *)
Definition try_except {A} (body : M A) (handlers : exn → option (M A)) : M A :=
  λ w, match body w with
       | (Return a, w') => (Return a, w')
       | (Raise e, w') =>
           match handlers e with
           | Some h => h w'
           | None => (Raise e, w')
           end
       end.

(** The exit status of the process once [main] has ended: [sys.exit(n)]
    gives [n], an exception that nothing caught gives 1. *)
Definition exit_code (r : result unit) : Z :=
  match r with
  | Return _ => 0
  | Raise (SystemExit code) => code
  | Raise _ => 1
  end.

(** ** The interpreter's library *)

Definition print (msg : text) : M unit :=
  λ w, (Return tt, printed [msg] w).

(** [input(prompt)] *)
Definition input (prompt : text) : M text :=
  λ w, match stdin w with
       | line :: rest =>
           (Return line, World (fs w) (path w) rest (stdout w ++ [prompt]))
       | [] =>
           (Raise EOFError, World (fs w) (path w) [] (stdout w ++ [prompt]))
       end.

Definition sys_exit {A} (code : Z) : M A := raise (SystemExit code).

(** [shutil.which(command) is not None] *)
Definition shutil_which (command : string) : M bool :=
  λ w, (Return (bool_decide (command ∈ path w)), w).

Definition os_path_exists (name : string) : M bool :=
  λ w, (Return (bool_decide (is_Some (fs w !! name))), w).

Definition os_path_getsize (name : string) : M N :=
  λ w, match fs w !! name with
       | Some f => (Return (size_of (data f)), w)
       | None => (Raise FileNotFoundError, w)
       end.

Definition os_remove (name : string) : M unit :=
  λ w, match fs w !! name with
       | Some f =>
           if immutable f then (Raise PermissionError, w)
           else (Return tt, set_fs (delete name (fs w)) w)
       | None => (Raise FileNotFoundError, w)
       end.

(** [os.rename(src, dst)]; an existing [dst] is replaced. *)
Definition os_rename (src dst : string) : M unit :=
  λ w, match fs w !! src with
       | Some f =>
           if immutable f
              || from_option immutable false (fs w !! dst)
           then (Raise PermissionError, w)
           else (Return tt, set_fs (<[dst := f]> (delete src (fs w))) w)
       | None => (Raise FileNotFoundError, w)
       end.

(** [with open(name, 'r', encoding='utf-8') as f: f.read()] *)
Definition read_text (name : string) : M text :=
  λ w, match fs w !! name with
       | Some f =>
           match data f with
           | Text t => (Return (universal_newlines t), w)
           | Garbled _ => (Raise UnicodeDecodeError, w)
           end
       | None => (Raise FileNotFoundError, w)
       end.

(** [with open(name, 'r', encoding='utf-8') as f: f.readlines()] *)
Definition read_lines (name : string) : M (list text) :=
  let* content := read_text name in ret (keepends content).

(** [with open(name, 'w', encoding='utf-8') as f: f.write(content)] *)
Definition write_text (name : string) (content : text) : M unit :=
  λ w, if from_option immutable false (fs w !! name)
       then (Raise PermissionError, w)
       else (Return tt, set_fs (<[name := File (Text content) false]> (fs w)) w).

(** What launching an external program comes to. *)
Inductive launch :=
  | Exited (returncode : Z) (out err : text)
  | NotFound        (* no such executable *)
  | TimedOut
  | Crashed.        (* the launch raised something else *)

Record CompletedProcess := Completed {
  returncode : Z;
  proc_stdout : text;
  proc_stderr : text;
}.

(** ** Sample data *)

Definition nl : string := String "010" EmptyString.

(** The example of the specification, its [...] line taken as it is. *)
Definition example_srt : text :=
  txt ("1" ++ nl ++ "00:00:01,000 --> 00:00:02,000" ++ nl
       ++ "Hello <b>world</b>" ++ nl ++ nl ++ "2" ++ nl ++ "..." ++ nl
       ++ "Goodbye" ++ nl).

(** What the specification expects for it, and what the cleaner writes. *)
Definition example_expected : text :=
  txt ("Hello world" ++ nl ++ "Goodbye" ++ nl).
Definition example_cleaned : text :=
  txt ("Hello world" ++ nl ++ "..." ++ nl ++ "Goodbye" ++ nl).

(** A directory that holds one writable text file. *)
Definition one_file (name : string) (content : text) : world :=
  World {[name := File (Text content) false]} ∅ [] [].

(** A character database whose decimal digits are the ASCII ones. *)
Definition ascii_only : N → bool := λ _, false.

(** A line of markup and nothing else, as [readlines] gives it. *)
Definition italic_line : text := txt ("<i></i>" ++ nl).

(** A transcript of counters, time stamps and blank lines. *)
Definition noise_srt : text :=
  txt ("1" ++ nl ++ "00:00:01,000 --> 00:00:02,000" ++ nl ++ nl).

(** A transcript whose only caption is a number in bold. *)
Definition bold_number_srt : text := txt ("<b>12</b>" ++ nl).

(** A terminal session: both programs installed, no file yet, the user
    about to paste an address. *)
Definition terminal : world :=
  World ∅ {["yt-dlp"; "ollama"]} [txt " https://youtu.be/x "] [].

(** Stand-ins for the external programs.  The downloader writes the
    example under the name with the language suffix. *)
Definition writes_example (w : world) : world :=
  set_fs (<["transcript.srt.en.srt" := File (Text example_srt) false]> (fs w)) w.

(** The runner exits with status 3 after writing on both streams. *)
Definition failing_runner (argv : list text) (input_data : option text)
    (timeout : option N) (w : world) : launch * world :=
  if bool_decide (head argv = Some (txt "yt-dlp")) then
    (Exited 0 [] [], writes_example w)
  else if bool_decide (argv !! 1%nat = Some (txt "run")) then
    (Exited 3 (txt "partial") (txt "boom"), w)
  else (Exited 0 [] [], w).

(** The runner answers; [ollama stop] exits with status 1. *)
Definition failing_release (argv : list text) (input_data : option text)
    (timeout : option N) (w : world) : launch * world :=
  if bool_decide (head argv = Some (txt "yt-dlp")) then
    (Exited 0 [] [], writes_example w)
  else if bool_decide (argv !! 1%nat = Some (txt "stop")) then
    (Exited 1 [] (txt "no such model"), w)
  else (Exited 0 (txt "A greeting and a farewell.") [], w).

(** Programs that exit with status 0 and touch nothing. *)
Definition idle (argv : list text) (input_data : option text)
    (timeout : option N) (w : world) : launch * world :=
  (Exited 0 [] [], w).

(** No downloader answers the call. *)
Definition no_downloader (argv : list text) (input_data : option text)
    (timeout : option N) (w : world) : launch * world :=
  (NotFound, w).

(** A caption with whitespace around it, as [readlines] gives it. *)
Definition padded_line : text := txt ("  Hello world " ++ nl).

(** A directory where the file with the language suffix cannot be moved. *)
Definition locked_variant : world :=
  World {["transcript.srt.en.srt" := File (Text example_srt) true]} ∅ [] [].


(** A terminal where the user just presses the return key. *)
Definition silent_terminal : world :=
  World ∅ {["yt-dlp"; "ollama"]} [txt "   "] [].


Section Program.

(** [\d] on a [str] pattern is the Unicode category Nd of the interpreter's
    character database.  Its ASCII part is [0-9]; the rest grows with
    every Unicode version and stays a parameter. *)
Variable Nd_beyond_ascii : N → bool.

Definition isdecimal (c : N) : bool :=
  if c <? 0x80 then (0x30 <=? c) && (c <=? 0x39) else Nd_beyond_ascii c.

Definition cset_mem (cs : cset) (c : N) : bool :=
  match cs with
  | Lit x => c =? x
  | NotLit x => negb (c =? x)
  | Digit => isdecimal c
  end.

(** Matches [p] at the head of [s]; [bos] tells whether that is the start
    of the whole string. *)
Fixpoint exec (p : regex) (bos : bool) (s : text) : option text :=
  match p with
  | [] => Some s
  | Bol :: p' => if bos then exec p' bos s else None
  | Eol :: p' => if at_eol s then exec p' bos s else None
  | Rep cs lo hi :: p' =>
      greedy (cset_mem cs) lo hi
        (λ r, exec p' (bos && (length r =? length s)%nat) r) s
  end.

(** [bool(pattern.match(s))] *)
Definition re_match (p : regex) (s : text) : bool :=
  match exec p true s with Some _ => true | None => false end.

(** [pattern.sub(repl, s)]: the matches are searched from left to right and
    do not overlap; [skip] counts the characters of the current match still
    to be passed.  Empty matches are left alone: the one pattern substituted
    here, [tag_pattern], has none. *)
Fixpoint sub_from (p : regex) (repl : text) (bos : bool) (skip : nat)
    (s : text) : text :=
  match s with
  | [] => []
  | c :: r =>
      match skip with
      | S n => sub_from p repl false n r
      | O =>
          match exec p bos s with
          | Some rest =>
              match (length s - length rest)%nat with
              | O => c :: sub_from p repl false 0 r
              | S n => repl ++ sub_from p repl false n r
              end
          | None => c :: sub_from p repl false 0 r
          end
      end
  end.

Definition re_sub (p : regex) (repl s : text) : text :=
  sub_from p repl true 0 s.

(** ** The patterns of [clean_srt_file] *)

(** [r"^\d{2}:\d{2}:\d{2},\d{3} --> \d{2}:\d{2}:\d{2},\d{3}$"] *)
Definition timestamp_pattern : regex :=
  [Bol; digits 2; chr ":"; digits 2; chr ":"; digits 2; chr ","; digits 3;
   chr " "; chr "-"; chr "-"; chr ">"; chr " ";
   digits 2; chr ":"; digits 2; chr ":"; digits 2; chr ","; digits 3; Eol].

(** [r"^\d+$"] *)
Definition seq_num_pattern : regex := [Bol; Rep Digit 1 None; Eol].

(** [r"<[^>]*>"] *)
Definition tag_pattern : regex :=
  [chr "<"; Rep (NotLit (N_of_ascii ">")) 0 None; chr ">"].

(** ** The loop of [clean_srt_file] *)

(** One turn of [for line in lines]: the new value of [cleaned_lines]. *)
Definition clean_step (cleaned_lines : list text) (line : text) : list text :=
  let line := strip line in
  if bool_decide (line = []) then cleaned_lines
  else if re_match timestamp_pattern line || re_match seq_num_pattern line
  then cleaned_lines
  else
    let line := re_sub tag_pattern [] line in
    if bool_decide (strip line = []) then cleaned_lines
    else cleaned_lines ++ [strip line].

Definition clean_lines (lines : list text) : list text :=
  fold_left clean_step lines [].

(** What the cleaner writes for the lines it kept. *)
Definition cleaned_content (cleaned_lines : list text) : text :=
  join [LF] cleaned_lines ++ [LF].


(** ** External programs

    What [yt-dlp] and [ollama] do is not the program's business: the outcome
    of a launch and what it leaves in the world are a parameter.  Every
    launch of a run happens in a world of its own (something is printed
    before each), so one function accounts for any sequence of outcomes. *)
Variable popen : list text → option text → option N → world → launch * world.

(** [subprocess.run(argv, input=..., capture_output=True, check=...,
    timeout=...)] *)
Definition subprocess_run (argv : list text) (input_data : option text)
    (check : bool) (timeout : option N) : M CompletedProcess :=
  λ w, match popen argv input_data timeout w with
       | (Exited rc out err, w') =>
           if check && negb (rc =? 0)%Z
           then (Raise (CalledProcessError rc argv out err), w')
           else (Return (Completed rc out err), w')
       | (NotFound, w') => (Raise FileNotFoundError, w')
       | (TimedOut, w') => (Raise TimeoutExpired, w')
       | (Crashed, w') => (Raise OtherException, w')
       end.

(** ** Configuration *)

Definition PROMPT : text :=
  txt "Please provide a detailed summary of the following YouTube video transcript:".
Definition OLLAMA_MODEL : text := txt "gemma3:12b".
Definition TRANSCRIPT_FILENAME : string := "transcript.srt".

(** [False] in [main.py] as it stands; kept a parameter so that the results
    cover both settings. *)
Variable DELETE_TRANSCRIPT_AFTER_SUMMARY : bool.

(** ** The functions of [main.py] *)

Definition check_command_exists (command : string) : M unit :=
  let* found := shutil_which command in
  if found then ret tt
  else
    print (txt "Error: Required command '" ++ txt command
           ++ txt "' not found in PATH.") ;;;
    print (txt "Please install it and ensure it's accessible.") ;;;
    sys_exit 1.

Definition run_command (command_list : list text) (step_name : text)
    (input_data : option text) : M CompletedProcess :=
  print (txt "Running: " ++ join (txt " ") command_list) ;;;
  try_except
    (let* result := subprocess_run command_list input_data true None in
     print (step_name ++ txt " completed successfully.") ;;;
     ret result)
    (λ e, match e with
          | FileNotFoundError =>
              Some (raise (CommandError
                (txt "Command not found: " ++ default [] (head command_list)
                 ++ txt ". Is it installed and in PATH?")))
          | CalledProcessError rc cmd out err =>
              Some (
                let error_msg :=
                  txt "Error during " ++ step_name
                  ++ txt ": Command exited with status " ++ str_of_Z rc
                  ++ [LF] in
                let error_msg :=
                  error_msg ++ (txt "Command: " ++ join (txt " ") cmd ++ [LF]) in
                let error_msg :=
                  error_msg ++ (txt "STDERR:" ++ [LF] ++ err ++ [LF]) in
                let error_msg :=
                  error_msg ++ (txt "STDOUT:" ++ [LF] ++ out) in
                raise (CommandError error_msg))
          | _ =>
              if is_Exception e then
                Some (raise (CommandError
                  (txt "An unexpected error occurred during " ++ step_name
                   ++ txt ": " ++ str_of_exn e)))
              else None
          end).

Definition clean_srt_file (filename : string) : M bool :=
  print (txt "Cleaning transcript file: " ++ txt filename) ;;;
  try_except
    (let* lines := read_lines filename in
     let cleaned_lines := clean_lines lines in
     if bool_decide (cleaned_lines = []) then
       print (txt "Warning: Transcript file is empty after cleaning.") ;;;
       ret false
     else
       write_text filename (cleaned_content cleaned_lines) ;;;
       print (txt "Transcript cleaning complete.") ;;;
       ret true)
    (λ e, match e with
          | FileNotFoundError =>
              Some (print (txt "Error: Transcript file '" ++ txt filename
                           ++ txt "' not found for cleaning.") ;;;
                    ret false)
          | _ =>
              if is_OSError e then
                Some (print (txt "Error reading or writing transcript file '"
                             ++ txt filename ++ txt "': " ++ str_of_exn e) ;;;
                      ret false)
              else if is_Exception e then
                Some (print (txt "An unexpected error occurred during cleaning: "
                             ++ str_of_exn e) ;;;
                      ret false)
              else None
          end).

Definition yt_dlp_command (youtube_url : text) : list text :=
  [txt "yt-dlp"; txt "--skip-download"; txt "--write-subs";
   txt "--write-auto-subs"; txt "--sub-lang"; txt "en";
   txt "--sub-format"; txt "ttml"; txt "--convert-subs"; txt "srt";
   txt "--output"; txt TRANSCRIPT_FILENAME; youtube_url].

Definition download_subtitles (youtube_url : text) : M bool :=
  try_except
    (run_command (yt_dlp_command youtube_url)
       (txt "Subtitle Download (yt-dlp)") None ;;;
     (* Handle potential filename variation *)
     (let* variant := os_path_exists "transcript.srt.en.srt" in
      if variant then os_rename "transcript.srt.en.srt" TRANSCRIPT_FILENAME
      else ret tt) ;;;
     (* Verify file exists and is not empty *)
     let* created := os_path_exists TRANSCRIPT_FILENAME in
     if negb created then
       print (txt "Error: Subtitle file '" ++ txt TRANSCRIPT_FILENAME
              ++ txt "' was not created.") ;;;
       print (txt "Possible reasons: Video unavailable, no English subtitles found, network issue.") ;;;
       ret false
     else
       let* size := os_path_getsize TRANSCRIPT_FILENAME in
       if size =? 0 then
         print (txt "Error: Subtitle file '" ++ txt TRANSCRIPT_FILENAME
                ++ txt "' is empty.") ;;;
         print (txt "No English subtitles were likely found for this video.") ;;;
         try_except (os_remove TRANSCRIPT_FILENAME)
           (λ e, if is_OSError e then Some (ret tt) else None) ;;;
         ret false
       else ret true)
    (λ e, match e with
          | CommandError _ => Some (print (str_of_exn e) ;;; ret false)
          | _ => None
          end).

Definition ollama_command : list text :=
  [txt "ollama"; txt "run"; OLLAMA_MODEL; PROMPT].

Definition summarize_transcript : M bool :=
  try_except
    (let* transcript_content := read_text TRANSCRIPT_FILENAME in
     if bool_decide (strip transcript_content = []) then
       print (txt "Error: Transcript content is empty after cleaning. Cannot summarize.") ;;;
       ret false
     else
       print (txt "Sending transcript ("
              ++ str_of_Z (Z.of_nat (length transcript_content))
              ++ txt " bytes) to ollama via stdin...") ;;;
       let* result :=
         run_command ollama_command (txt "Summarization")
           (Some transcript_content) in
       print ([LF] ++ txt "--- Summary ---") ;;;
       print (strip (proc_stdout result)) ;;;
       print (txt "---------------") ;;;
       ret true)
    (λ e, match e with
          | CommandError _ => Some (print (str_of_exn e) ;;; ret false)
          | _ =>
              if is_OSError e then
                Some (print (txt "Error with transcript file: " ++ str_of_exn e) ;;;
                      ret false)
              else if is_Exception e then
                Some (print (txt "An unexpected error occurred during summarization: "
                             ++ str_of_exn e) ;;;
                      ret false)
              else None
          end).

Definition stop_ollama_model : M bool :=
  print ([LF] ++ txt "--- Stopping ollama Model (" ++ OLLAMA_MODEL
         ++ txt ") ---") ;;;
  try_except
    (let stop_command := [txt "ollama"; txt "stop"; OLLAMA_MODEL] in
     run_command stop_command
       (txt "Stopping ollama Model (" ++ OLLAMA_MODEL ++ txt ")") None ;;;
     ret true)
    (λ e, match e with
          | CommandError _ =>
              Some (print (txt "Warning: Could not stop ollama model: "
                           ++ str_of_exn e) ;;;
                    ret false)
          | _ => None
          end).

Definition cleanup : M unit :=
  if DELETE_TRANSCRIPT_AFTER_SUMMARY then
    try_except
      (os_remove TRANSCRIPT_FILENAME ;;;
       print (txt "Removed transcript file: " ++ txt TRANSCRIPT_FILENAME))
      (λ e, if is_OSError e then
              Some (print (txt "Warning: Could not remove transcript file '"
                           ++ txt TRANSCRIPT_FILENAME ++ txt "': "
                           ++ str_of_exn e))
            else None)
  else ret tt.

Definition main : M unit :=
  (* Check prerequisites *)
  print (txt "Checking prerequisites...") ;;;
  check_command_exists "yt-dlp" ;;;
  check_command_exists "ollama" ;;;
  (* Check if ollama service is running *)
  try_except
    (subprocess_run [txt "ollama"; txt "ps"] None true (Some 5) ;;;
     print (txt "ollama service appears to be running."))
    (λ e, match e with
          | CalledProcessError _ _ _ _ | FileNotFoundError | TimeoutExpired =>
              Some (print (txt "Warning: Could not confirm ollama service is running. Attempting to proceed..."))
          | _ => None
          end) ;;;
  (* Get YouTube URL *)
  let* youtube_url := input (txt "Please paste Youtube URL: ") in
  let youtube_url := strip youtube_url in
  (if bool_decide (youtube_url = []) then
     print (txt "Error: No URL provided.") ;;; sys_exit 1
   else ret tt) ;;;
  (* Process the video *)
  (let* ok := download_subtitles youtube_url in
   if negb ok then sys_exit 1 else ret tt) ;;;
  (let* ok := clean_srt_file TRANSCRIPT_FILENAME in
   if negb ok then sys_exit 1 else ret tt) ;;;
  (let* ok := summarize_transcript in
   if negb ok then sys_exit 1 else ret tt) ;;;
  (* Stop the ollama model to free resources *)
  stop_ollama_model ;;;
  cleanup ;;;
  print ([LF] ++ txt "Script finished successfully.").

(** ** Stages of a run

    The statements of [download_subtitles] and of [main] up to the points
    the properties below speak about. *)

(** [download_subtitles], from the launch of the downloader to the renaming
    of the file it may have written under the other name; what follows
    verifies the file. *)
Definition fetch_subtitles (youtube_url : text) : M unit :=
  run_command (yt_dlp_command youtube_url)
    (txt "Subtitle Download (yt-dlp)") None ;;;
  let* variant := os_path_exists "transcript.srt.en.srt" in
  if variant then os_rename "transcript.srt.en.srt" TRANSCRIPT_FILENAME
  else ret tt.

(** The rest of [download_subtitles]: the file is verified. *)
Definition verify_subtitles : M bool :=
  let* created := os_path_exists TRANSCRIPT_FILENAME in
  if negb created then
    print (txt "Error: Subtitle file '" ++ txt TRANSCRIPT_FILENAME
           ++ txt "' was not created.") ;;;
    print (txt "Possible reasons: Video unavailable, no English subtitles found, network issue.") ;;;
    ret false
  else
    let* size := os_path_getsize TRANSCRIPT_FILENAME in
    if size =? 0 then
      print (txt "Error: Subtitle file '" ++ txt TRANSCRIPT_FILENAME
             ++ txt "' is empty.") ;;;
      print (txt "No English subtitles were likely found for this video.") ;;;
      try_except (os_remove TRANSCRIPT_FILENAME)
        (λ e, if is_OSError e then Some (ret tt) else None) ;;;
      ret false
    else ret true.

(** [main] up to the call of [summarize_transcript]. *)
Definition main_setup : M unit :=
  print (txt "Checking prerequisites...") ;;;
  check_command_exists "yt-dlp" ;;;
  check_command_exists "ollama" ;;;
  try_except
    (subprocess_run [txt "ollama"; txt "ps"] None true (Some 5) ;;;
     print (txt "ollama service appears to be running."))
    (λ e, match e with
          | CalledProcessError _ _ _ _ | FileNotFoundError | TimeoutExpired =>
              Some (print (txt "Warning: Could not confirm ollama service is running. Attempting to proceed..."))
          | _ => None
          end) ;;;
  let* youtube_url := input (txt "Please paste Youtube URL: ") in
  let youtube_url := strip youtube_url in
  (if bool_decide (youtube_url = []) then
     print (txt "Error: No URL provided.") ;;; sys_exit 1
   else ret tt) ;;;
  (let* ok := download_subtitles youtube_url in
   if negb ok then sys_exit 1 else ret tt) ;;;
  (let* ok := clean_srt_file TRANSCRIPT_FILENAME in
   if negb ok then sys_exit 1 else ret tt).

(** The world in which [summarize_transcript] launches the runner on a
    transcript of this content. *)
Definition runner_launch (transcript_content : text) (w : world) : world :=
  printed
    [txt "Sending transcript ("
       ++ str_of_Z (Z.of_nat (length transcript_content))
       ++ txt " bytes) to ollama via stdin...";
     txt "Running: " ++ join (txt " ") ollama_command] w.

(** ** The vocabulary of the specification *)

Definition lt_sign : N := N_of_ascii "<".
Definition gt_sign : N := N_of_ascii ">".

(** A markup tag: [<], the shortest run of characters other than [>], [>]. *)
Definition markup_tag (t : text) : Prop :=
  ∃ body, (gt_sign ∉ body) ∧ t = lt_sign :: body ++ [gt_sign].

Definition has_tag (s : text) : Prop :=
  ∃ pre t post, markup_tag t ∧ s = pre ++ t ++ post.

(** A line that consists only of markup tags. *)
Inductive tags_only : text → Prop :=
  | tags_only_nil : tags_only []
  | tags_only_cons t rest :
      markup_tag t → tags_only rest → tags_only (t ++ rest).

Definition decimal_digits (n : nat) (s : text) : Prop :=
  length s = n ∧ Forall (λ c, isdecimal c = true) s.

(** [HH:MM:SS,mmm] *)
Definition clock_time (s : text) : Prop :=
  ∃ hh mm ss mmm,
    decimal_digits 2 hh ∧ decimal_digits 2 mm ∧ decimal_digits 2 ss ∧
    decimal_digits 3 mmm ∧
    s = hh ++ txt ":" ++ mm ++ txt ":" ++ ss ++ txt "," ++ mmm.

(** [HH:MM:SS,mmm --> HH:MM:SS,mmm], the whole line. *)
Definition timestamp_range (s : text) : Prop :=
  ∃ t1 t2, clock_time t1 ∧ clock_time t2 ∧ s = t1 ++ txt " --> " ++ t2.

(** A sequence counter: digits and nothing else. *)
Definition purely_digits (s : text) : Prop :=
  s ≠ [] ∧ Forall (λ c, isdecimal c = true) s.

(** No whitespace at either end. *)
Definition trimmed (s : text) : Prop :=
  (∀ c, head s = Some c → isspace c = false) ∧
  (∀ c, last s = Some c → isspace c = false).

(** The text after the first [>] of [r], if [r] has one. *)
Fixpoint tag_end (r : text) : option text :=
  match r with
  | [] => None
  | c :: r' => if c =? gt_sign then Some r' else tag_end r'
  end.

(** A text against a shape, one class for each character. *)
Fixpoint shape_match (shape : list cset) (s : text) : bool :=
  match shape, s with
  | [], [] => true
  | cs :: sh, c :: r => cset_mem cs c && shape_match sh r
  | _, _ => false
  end.

Definition clock_shape : list cset :=
  replicate 2 Digit ++ (Lit <$> txt ":") ++ replicate 2 Digit
  ++ (Lit <$> txt ":") ++ replicate 2 Digit ++ (Lit <$> txt ",")
  ++ replicate 3 Digit.

Definition timestamp_shape : list cset :=
  clock_shape ++ (Lit <$> txt " --> ") ++ clock_shape.

(** A pattern without [^]. *)
Definition no_bol (p : regex) : bool :=
  forallb (λ i, match i with Bol => false | _ => true end) p.

(** The same text with DOS line ends: every [\n] becomes [\r\n]. *)
Definition to_crlf (t : text) : text :=
  t ≫= (λ c, if c =? LF then [CR; LF] else [c]).

(** What every line kept from a file is like. *)
Definition clean_line (l : text) : Prop :=
  l ≠ [] ∧ trimmed l ∧ ¬ has_tag l ∧ (LF ∉ l) ∧ (CR ∉ l).

(** What the loop makes of one line it keeps: trimmed, tags removed,
    trimmed again. *)
Definition rewrite_line (line : text) : text :=
  strip (re_sub tag_pattern [] (strip line)).

(** The loop on one line: what it appends, if anything. *)
Definition kept (line : text) : option text :=
  if bool_decide (strip line = []) then None
  else if re_match timestamp_pattern (strip line)
          || re_match seq_num_pattern (strip line) then None
  else if bool_decide (rewrite_line line = []) then None
  else Some (rewrite_line line).

(** * Properties *)

(** ** Trimming *)

Lemma lstrip_sublist s : lstrip s `sublist_of` s.
Proof.
  induction s as [|c r IH]; simpl; [done|].
  destruct (isspace c); [by apply sublist_cons|done].
Qed.

Lemma rstrip_sublist s : rstrip s `sublist_of` s.
Proof.
  induction s as [|c r IH]; simpl; [done|].
  destruct (rstrip r) as [|c' r'] eqn:E.
  - destruct (isspace c); [apply sublist_nil_l|].
    apply sublist_skip, sublist_nil_l.
  - by apply sublist_skip.
Qed.

Lemma strip_sublist s : strip s `sublist_of` s.
Proof.
  unfold strip. etrans; [apply rstrip_sublist|apply lstrip_sublist].
Qed.

Lemma lstrip_head s c : head (lstrip s) = Some c → isspace c = false.
Proof.
  induction s as [|a r IH]; simpl; [done|].
  destruct (isspace a) eqn:E; [done|]. simpl. by intros [= <-].
Qed.

Lemma rstrip_last s c : last (rstrip s) = Some c → isspace c = false.
Proof.
  induction s as [|a r IH]; simpl; [done|].
  destruct (rstrip r) as [|c' r'] eqn:E.
  - destruct (isspace a) eqn:Ea; [done|]. simpl. by intros [= <-].
  - rewrite last_cons_cons. apply IH.
Qed.

Lemma rstrip_head s c : head (rstrip s) = Some c → head s = Some c.
Proof.
  destruct s as [|a r]; simpl; [done|].
  destruct (rstrip r); [|done]. by destruct (isspace a).
Qed.

Lemma strip_trimmed s : trimmed (strip s).
Proof.
  split; intros c H.
  - apply rstrip_head in H. by apply lstrip_head in H.
  - by apply rstrip_last in H.
Qed.

Lemma lstrip_id s : (∀ c, head s = Some c → isspace c = false) → lstrip s = s.
Proof.
  destruct s as [|a r]; simpl; [done|]. intros H. by rewrite (H a).
Qed.

Lemma rstrip_id s : (∀ c, last s = Some c → isspace c = false) → rstrip s = s.
Proof.
  induction s as [|a r IH]; simpl; [done|]. intros H.
  destruct r as [|b r'].
  - simpl. by rewrite (H a).
  - rewrite IH; [done|]. intros c Hc. apply H. by rewrite last_cons_cons.
Qed.

Lemma trimmed_strip s : trimmed s → strip s = s.
Proof.
  intros [Hh Hl]. unfold strip. rewrite lstrip_id by done. by apply rstrip_id.
Qed.

Lemma strip_idemp s : strip (strip s) = strip s.
Proof. apply trimmed_strip, strip_trimmed. Qed.

Lemma rstrip_snoc_space s c : isspace c = true → rstrip (s ++ [c]) = rstrip s.
Proof.
  intros Hc. induction s as [|a r IH]; simpl; [by rewrite Hc|].
  by rewrite IH.
Qed.

Lemma lstrip_snoc s c :
  lstrip (s ++ [c]) = if bool_decide (lstrip s = []) then lstrip [c]
                      else lstrip s ++ [c].
Proof.
  induction s as [|a r IH]; simpl; [done|].
  destruct (isspace a); [done|]. by rewrite bool_decide_eq_false_2.
Qed.

Lemma strip_snoc_space s c : isspace c = true → strip (s ++ [c]) = strip s.
Proof.
  intros Hc. unfold strip. rewrite lstrip_snoc. case_bool_decide as E.
  - rewrite E. simpl. by rewrite Hc.
  - by apply rstrip_snoc_space.
Qed.

(** ** Reading lines *)

Lemma universal_newlines_no_CR s : CR ∉ universal_newlines s.
Proof.
  induction s as [s IH] using (induction_ltof1 _ length).
  unfold ltof in IH. destruct s as [|c r]; simpl; [apply not_elem_of_nil|].
  destruct (N.eqb_spec c CR) as [->|Hc].
  - destruct r as [|c' r']; [by intros [=]%list_elem_of_singleton|].
    destruct (c' =? LF); apply not_elem_of_cons; (split; [done|]);
      apply IH; simpl; lia.
  - apply not_elem_of_cons. split; [done|]. apply IH. simpl. lia.
Qed.

Lemma universal_newlines_id s : CR ∉ s → universal_newlines s = s.
Proof.
  induction s as [|c r IH]; simpl; [done|].
  intros [Hc Hr]%not_elem_of_cons.
  destruct (N.eqb_spec c CR); [done|]. by rewrite IH.
Qed.

Lemma keepends_concat s : concat (keepends s) = s.
Proof.
  induction s as [|c r IH]; simpl; [done|].
  destruct (c =? LF) eqn:E.
  - apply N.eqb_eq in E as ->. simpl. by rewrite IH.
  - destruct (keepends r) as [|l ls]; simpl in *; by rewrite <- IH.
Qed.

(** A line of [keepends] carries [\n] at its end or nowhere. *)
Lemma keepends_line s l :
  l ∈ keepends s → ∃ body, (LF ∉ body) ∧ (l = body ++ [LF] ∨ l = body).
Proof.
  revert l. induction s as [|c r IH]; simpl; intros l Hl.
  { by apply elem_of_nil in Hl. }
  destruct (N.eqb_spec c LF) as [->|Hc].
  - apply elem_of_cons in Hl as [->|Hl]; [|by apply IH].
    exists []. split; [apply not_elem_of_nil|by left].
  - destruct (keepends r) as [|l0 ls].
    + apply list_elem_of_singleton in Hl as ->. exists [c]. split; [|by right].
      by intros <-%list_elem_of_singleton.
    + apply elem_of_cons in Hl as [->|Hl].
      * destruct (IH l0) as (body & Hb & Hl0); [by left|].
        exists (c :: body). split.
        { apply not_elem_of_cons. by split. }
        destruct Hl0 as [->| ->]; [by left|by right].
      * apply IH. by right.
Qed.

Lemma keepends_elem_of s l c : l ∈ keepends s → c ∈ l → c ∈ s.
Proof.
  intros Hl Hc. rewrite <- (keepends_concat s).
  apply list_elem_of_In, in_concat. exists l.
  split; by apply list_elem_of_In.
Qed.

Lemma keepends_app_line l rest :
  LF ∉ l → keepends (l ++ LF :: rest) = (l ++ [LF]) :: keepends rest.
Proof.
  induction l as [|c r IH]; simpl; [done|].
  intros [Hc Hr]%not_elem_of_cons.
  destruct (N.eqb_spec c LF); [done|]. by rewrite IH.
Qed.

Lemma join_cons sep p ps :
  ps ≠ [] → join sep (p :: ps) = p ++ sep ++ join sep ps.
Proof. by destruct ps. Qed.

(** Read back, a written content gives the lines it was made of. *)
Lemma keepends_cleaned_content ls :
  ls ≠ [] → Forall (λ l, LF ∉ l) ls →
  keepends (cleaned_content ls) = (λ l, l ++ [LF]) <$> ls.
Proof.
  unfold cleaned_content. intros Hne Hls.
  induction Hls as [|l ls Hl Hls IH]; [done|].
  destruct ls as [|l' ls'].
  - simpl. rewrite keepends_app_line by done. done.
  - rewrite join_cons by done. rewrite <- !app_assoc.
    change ([LF] ++ ?x) with (LF :: x).
    rewrite keepends_app_line by done. by rewrite IH.
Qed.

Lemma elem_of_join_LF c ls :
  c ∈ join [LF] ls → c = LF ∨ ∃ l, l ∈ ls ∧ c ∈ l.
Proof.
  induction ls as [|l ls IH]; simpl.
  { by intros ?%elem_of_nil. }
  destruct ls as [|l' ls'].
  - intros Hc. right. exists l. split; [by left|done].
  - rewrite elem_of_app, elem_of_cons.
    intros [Hc|[->|Hc]]; [|by left|].
    + right. exists l. split; [by left|done].
    + destruct (IH Hc) as [->|(l0 & Hl0 & Hc0)]; [by left|].
      right. exists l0. split; [by right|done].
Qed.

(** ** The matcher *)

Lemma greedy_ext mem lo hi k k' s :
  (∀ r, k r = k' r) → greedy mem lo hi k s = greedy mem lo hi k' s.
Proof.
  intros Hk. revert lo hi. induction s as [|c r IH]; intros lo hi; simpl.
  - by destruct lo.
  - rewrite IH, Hk. done.
Qed.

Lemma exec_bos_irrel p b b' s : no_bol p = true → exec p b s = exec p b' s.
Proof.
  revert b b' s. induction p as [|i p IH]; intros b b' s Hp; [done|].
  simpl in Hp. destruct i as [| |cs lo hi]; [done| |]; simpl.
  - destruct (at_eol s); [by apply IH|done].
  - apply greedy_ext. intros r. by apply IH.
Qed.

Lemma exec_rep cs lo hi p b s :
  exec (Rep cs lo hi :: p) b s =
    greedy (cset_mem cs) lo hi
      (λ r, exec p (b && (length r =? length s)%nat) r) s.
Proof. done. Qed.

(** An item repeated exactly [n] times takes its characters one by one. *)
Lemma exec_exact_nil cs n p b :
  exec (Rep cs (S n) (Some (S n)) :: p) b [] = None.
Proof. done. Qed.

Lemma exec_exact_0 cs p b s :
  no_bol p = true → exec (Rep cs 0 (Some O) :: p) b s = exec p b s.
Proof.
  intros Hp. destruct s as [|c r]; simpl.
  - by rewrite andb_true_r.
  - rewrite andb_false_r. rewrite Nat.eqb_refl. by rewrite andb_true_r.
Qed.

Lemma exec_exact_S cs n p b c r :
  no_bol p = true →
  exec (Rep cs (S n) (Some (S n)) :: p) b (c :: r) =
    if cset_mem cs c then exec (Rep cs n (Some n) :: p) false r else None.
Proof.
  intros Hp. simpl. rewrite andb_true_r.
  destruct (cset_mem cs c); [|done].
  rewrite (greedy_ext _ _ _ _ (λ r0, exec p false r0)).
  - by destruct (greedy _ _ _ _ _).
  - intros r'. by apply exec_bos_irrel.
Qed.

(** ** Tags *)

Lemma tag_end_Some r rest :
  tag_end r = Some rest ↔ ∃ body, (gt_sign ∉ body) ∧ r = body ++ gt_sign :: rest.
Proof.
  revert rest. induction r as [|c r IH]; intros rest; simpl.
  - split; [done|]. intros (body & _ & H). by destruct body.
  - destruct (N.eqb_spec c gt_sign) as [->|Hc].
    + split.
      * intros [= ->]. exists []. split; [apply not_elem_of_nil|done].
      * intros (body & Hb & H). destruct body as [|c' body].
        { by simplify_eq/=. }
        simplify_eq/=. exfalso. apply Hb. by left.
    + rewrite IH. split; intros (body & Hb & H).
      * exists (c :: body). split; [|by rewrite H].
        apply not_elem_of_cons. by split.
      * destruct body as [|c' body]; simplify_eq/=.
        exists body. split; [|done]. by apply not_elem_of_cons in Hb as [_ ?].
Qed.

Lemma tag_end_None r : tag_end r = None ↔ gt_sign ∉ r.
Proof.
  induction r as [|c r IH]; simpl.
  - split; [intros _; apply not_elem_of_nil|done].
  - destruct (N.eqb_spec c gt_sign) as [->|Hc].
    + split; [done|]. intros H. exfalso. apply H. by left.
    + rewrite IH, not_elem_of_cons. intuition congruence.
Qed.

Lemma tag_end_length r rest : tag_end r = Some rest → (length rest < length r)%nat.
Proof.
  intros (body & _ & ->)%tag_end_Some. rewrite length_app. simpl. lia.
Qed.

Lemma exec_chr a b s :
  exec [chr a] b s =
    match s with
    | c :: r => if c =? N_of_ascii a then Some r else None
    | [] => None
    end.
Proof.
  unfold chr. destruct s as [|c r]; [done|].
  rewrite exec_exact_S by done. cbn [cset_mem].
  destruct (c =? N_of_ascii a); [|done]. by rewrite exec_exact_0.
Qed.

Lemma greedy_not_gt k r :
  (∀ c r', k (c :: r') = if c =? gt_sign then Some r' else None) →
  k [] = None →
  greedy (cset_mem (NotLit gt_sign)) 0 None k r = tag_end r.
Proof.
  intros Hk Hnil. induction r as [|c r IH]; simpl; [done|].
  rewrite IH, Hk. destruct (c =? gt_sign); [done|]. simpl.
  by destruct (tag_end r).
Qed.

(** [tag_pattern] at the head of a text: [<], then up to the first [>]. *)
Lemma exec_tag b s :
  exec tag_pattern b s =
    match s with
    | c :: r => if c =? lt_sign then tag_end r else None
    | [] => None
    end.
Proof.
  unfold tag_pattern. destruct s as [|c r]; [done|]. unfold chr at 1.
  rewrite exec_exact_S by done. cbn [cset_mem].
  change (N_of_ascii "<") with lt_sign. destruct (c =? lt_sign); [|done].
  rewrite exec_exact_0 by done. rewrite exec_rep.
  change (N_of_ascii ">") with gt_sign. apply greedy_not_gt.
  - intros c' r'. by rewrite exec_chr.
  - by rewrite exec_chr.
Qed.

(** A match of [tag_pattern] is never empty, which is all that [sub_from]
    asks of its pattern. *)
Lemma tag_pattern_not_empty b s rest :
  exec tag_pattern b s = Some rest → (length rest + 2 ≤ length s)%nat.
Proof.
  rewrite exec_tag. destruct s as [|c r]; [done|].
  destruct (c =? lt_sign); [|done].
  intros H%tag_end_length. simpl. lia.
Qed.

(** ** Substitution *)

Lemma sub_from_sublist p b n s : sub_from p [] b n s `sublist_of` s.
Proof.
  revert b n. induction s as [|c r IH]; intros b n; [done|].
  cbn [sub_from]. destruct n as [|n]; [|by apply sublist_cons].
  destruct (exec p b (c :: r)) as [rest|]; [|by apply sublist_skip].
  destruct (length (c :: r) - length rest)%nat.
  - by apply sublist_skip.
  - simpl. by apply sublist_cons.
Qed.

Lemma sub_from_skip p repl xs r :
  sub_from p repl false (length xs) (xs ++ r) = sub_from p repl false 0 r.
Proof. induction xs as [|x xs IH]; [done|]. simpl. apply IH. Qed.

(** A match of [m] characters after [c] is replaced as a whole. *)
Lemma sub_from_match p repl b c m rest :
  exec p b (c :: m ++ rest) = Some rest →
  sub_from p repl b 0 (c :: m ++ rest) = repl ++ sub_from p repl false 0 rest.
Proof.
  intros H. cbn [sub_from]. rewrite H.
  replace (length (c :: m ++ rest) - length rest)%nat with (S (length m))
    by (simpl; rewrite length_app; lia).
  f_equal. apply sub_from_skip.
Qed.

Lemma no_tag_iff s :
  ¬ has_tag s ↔ ∀ pre post, s = pre ++ lt_sign :: post → gt_sign ∉ post.
Proof.
  split.
  - intros Hs pre post -> Hgt. apply Hs.
    apply list_elem_of_split_l in Hgt as (body & post' & -> & Hb).
    exists pre, (lt_sign :: body ++ [gt_sign]), post'. split.
    + by exists body.
    + simpl. by rewrite <- app_assoc.
  - intros Hs (pre & t & post & (body & Hb & ->) & ->).
    apply (Hs pre ((body ++ [gt_sign]) ++ post)); [done|].
    rewrite !elem_of_app, list_elem_of_singleton. auto.
Qed.

Lemma no_tag_cons c s :
  ¬ has_tag s → (c = lt_sign → gt_sign ∉ s) → ¬ has_tag (c :: s).
Proof.
  rewrite !no_tag_iff. intros Hs Hc pre post E.
  destruct pre as [|c' pre]; simplify_eq/=; [by apply Hc|].
  by eapply Hs.
Qed.

Lemma no_tag_inv c s :
  ¬ has_tag (c :: s) → ¬ has_tag s ∧ (c = lt_sign → gt_sign ∉ s).
Proof.
  rewrite !no_tag_iff. intros H. split.
  - intros pre post ->. by apply (H (c :: pre) post).
  - intros ->. by apply (H [] s).
Qed.

Lemma no_tag_sublist s s' : s' `sublist_of` s → ¬ has_tag s → ¬ has_tag s'.
Proof.
  rewrite !no_tag_iff. intros Hsub Hs pre post ->.
  apply sublist_app_l in Hsub as (k1 & k2 & -> & _ & Hk2).
  apply sublist_cons_l in Hk2 as (k3 & k4 & -> & Hpost).
  intros Hgt. apply (Hs (k1 ++ k3) k4); [by rewrite <- app_assoc|].
  by eapply elem_of_sublist.
Qed.

(** Whatever is left after the substitution has no tag. *)
Lemma sub_tag_no_tag b n s : ¬ has_tag (sub_from tag_pattern [] b n s).
Proof.
  revert b n. induction s as [|c r IH]; intros b n.
  { simpl. rewrite no_tag_iff. intros pre post E. by destruct pre. }
  cbn [sub_from]. destruct n as [|n]; [|apply IH].
  rewrite exec_tag. destruct (N.eqb_spec c lt_sign) as [->|Hc].
  - destruct (tag_end r) as [rest|] eqn:E.
    + apply tag_end_length in E.
      destruct (length (lt_sign :: r) - length rest)%nat eqn:El;
        [simpl in El; lia|]. apply IH.
    + apply no_tag_cons; [apply IH|]. intros _ Hgt.
      apply tag_end_None in E. apply E.
      eapply elem_of_sublist; [done|apply sub_from_sublist].
  - apply no_tag_cons; [apply IH|done].
Qed.

(** A text without tags is left as it is. *)
Lemma sub_tag_id b s : ¬ has_tag s → sub_from tag_pattern [] b 0 s = s.
Proof.
  revert b. induction s as [|c r IH]; intros b Hs; [done|].
  apply no_tag_inv in Hs as [Hr Hc].
  cbn [sub_from]. rewrite exec_tag.
  destruct (N.eqb_spec c lt_sign) as [->|Hne].
  - apply tag_end_None in Hc; [|done]. rewrite Hc. by rewrite IH.
  - by rewrite IH.
Qed.

(** A text made of tags only is removed altogether. *)
Lemma sub_tags_only b s : tags_only s → sub_from tag_pattern [] b 0 s = [].
Proof.
  intros Hs. revert b.
  induction Hs as [|t rest (body & Hb & ->) _ IH]; intros b; [done|].
  change ((lt_sign :: body ++ [gt_sign]) ++ rest)
    with (lt_sign :: (body ++ [gt_sign]) ++ rest).
  rewrite sub_from_match; [apply IH|].
  rewrite exec_tag, N.eqb_refl. apply tag_end_Some.
  exists body. split; [done|]. by rewrite <- app_assoc.
Qed.

(** ** Sequence numbers and time stamps *)

Lemma strip_last_not_LF s : last (strip s) ≠ Some LF.
Proof. intros H. by apply rstrip_last in H. Qed.

Lemma forallb_isdecimal s :
  forallb isdecimal s = true ↔ Forall (λ c, isdecimal c = true) s.
Proof.
  induction s as [|c r IH]; simpl; [by split|].
  rewrite andb_true_iff, Forall_cons, IH. done.
Qed.

Lemma greedy_digits_eol lo k s :
  (∀ r, k r = if at_eol r then Some r else None) →
  last s ≠ Some LF →
  greedy isdecimal lo None k s =
    if forallb isdecimal s && (lo <=? length s)%nat then Some [] else None.
Proof.
  intros Hk. revert lo. induction s as [|c r IH]; intros lo Hlast.
  { simpl. destruct lo; [by rewrite Hk|done]. }
  assert (k (c :: r) = None) as Hstop.
  { rewrite Hk. destruct r as [|c' r']; [|done]. simpl.
    destruct (N.eqb_spec c LF) as [->|]; done. }
  assert (last r ≠ Some LF) as Hr.
  { destruct r as [|c' r']; [done|]. by rewrite last_cons_cons in Hlast. }
  cbn [greedy forallb]. rewrite andb_true_r, IH, Hstop by done.
  destruct (isdecimal c); [|by destruct lo]. cbn [andb].
  destruct lo as [|lo]; cbn [pred].
  - replace (0 <=? length r)%nat with true by done.
    replace (0 <=? length (c :: r))%nat with true by done.
    by destruct (forallb isdecimal r).
  - change (S lo <=? length (c :: r))%nat with (lo <=? length r)%nat.
    by destruct (forallb isdecimal r && (lo <=? length r)%nat).
Qed.

(** On a line that does not end with a newline, [^\d+$] matches digits and
    nothing else. *)
Lemma match_seq_num s :
  last s ≠ Some LF → re_match seq_num_pattern s = true ↔ purely_digits s.
Proof.
  intros Hlast. unfold re_match, seq_num_pattern, purely_digits.
  change (exec [Bol; Rep Digit 1 None; Eol] true s)
    with (exec [Rep Digit 1 None; Eol] true s).
  rewrite exec_rep. change (cset_mem Digit) with isdecimal.
  rewrite greedy_digits_eol; [|intros r; simpl; by destruct (at_eol r)|done].
  rewrite <- forallb_isdecimal.
  destruct (forallb isdecimal s); destruct s as [|c r]; simpl;
    intuition congruence.
Qed.

Lemma shape_match_app sh1 sh2 s :
  shape_match (sh1 ++ sh2) s = true ↔
  ∃ s1 s2, s = s1 ++ s2 ∧ shape_match sh1 s1 = true ∧ shape_match sh2 s2 = true.
Proof.
  revert s. induction sh1 as [|cs sh1 IH]; intros s.
  - split.
    + intros H. by exists [], s.
    + intros (s1 & s2 & -> & H1 & H2). by destruct s1.
  - destruct s as [|c r].
    + split; [done|]. intros (s1 & s2 & E & H1 & _). by destruct s1.
    + cbn [app shape_match]. rewrite andb_true_iff, IH. split.
      * intros (Hc & s1 & s2 & -> & H1 & H2).
        exists (c :: s1), s2. cbn [shape_match]. by rewrite Hc, H1.
      * intros (s1 & s2 & E & H1 & H2). destruct s1 as [|c1 s1]; [done|].
        simplify_eq/=. apply andb_true_iff in H1 as [Hc H1].
        split; [done|]. by exists s1, s2.
Qed.

Lemma shape_match_digits n s :
  shape_match (replicate n Digit) s = true ↔ decimal_digits n s.
Proof.
  unfold decimal_digits. revert s. induction n as [|n IH]; intros s.
  - destruct s; simpl; [by split|]. split; [done|]. by intros [? _].
  - destruct s as [|c r]; [split; [done|by intros [? _]]|].
    cbn [replicate shape_match cset_mem].
    rewrite andb_true_iff, IH, Forall_cons. simpl.
    intuition congruence.
Qed.

Lemma shape_match_lit t s : shape_match (Lit <$> t) s = true ↔ s = t.
Proof.
  revert s. induction t as [|x t IH]; intros s.
  - by destruct s.
  - destruct s as [|c r]; [done|]. cbn [fmap list_fmap shape_match cset_mem].
    rewrite andb_true_iff, N.eqb_eq. change (list_fmap _ _ Lit t) with (Lit <$> t).
    rewrite IH. intuition congruence.
Qed.

Lemma shape_match_clock s : shape_match clock_shape s = true ↔ clock_time s.
Proof.
  unfold clock_shape, clock_time. split.
  - intros (hh & ? & -> & Hh & (? & ? & -> & ->%shape_match_lit
      & (mm & ? & -> & Hm & (? & ? & -> & ->%shape_match_lit
      & (ss & ? & -> & Hs & (? & mmm & -> & ->%shape_match_lit & Hf
      )%shape_match_app)%shape_match_app)%shape_match_app
      )%shape_match_app)%shape_match_app)%shape_match_app.
    exists hh, mm, ss, mmm. by rewrite <- !shape_match_digits.
  - intros (hh & mm & ss & mmm & Hh & Hm & Hs & Hf & ->).
    repeat (apply shape_match_app; eexists _, _; split; [done|split]);
      by (apply shape_match_digits || apply shape_match_lit).
Qed.

Lemma shape_match_timestamp s :
  shape_match timestamp_shape s = true ↔ timestamp_range s.
Proof.
  unfold timestamp_shape, timestamp_range. split.
  - intros (t1 & ? & -> & H1 & (? & t2 & -> & ->%shape_match_lit & H2
      )%shape_match_app)%shape_match_app.
    exists t1, t2. by rewrite <- !shape_match_clock.
  - intros (t1 & t2 & H1 & H2 & ->).
    repeat (apply shape_match_app; eexists _, _; split; [done|split]);
      by (apply shape_match_clock || apply shape_match_lit).
Qed.

(** One character of an exact item, on the pattern and on the shapes. *)
Ltac exact_step :=
  first
    [ rewrite exec_exact_0 by done
    | match goal with
      | |- context [exec (Rep ?cs (S _) (Some (S _)) :: _) _ ?s] =>
          let c := fresh "c" in
          let r := fresh "r" in
          destruct s as [|c r]; [done|];
          rewrite exec_exact_S by done; cbn [shape_match];
          destruct (cset_mem cs c); [cbn [andb]|done]
      end ].

(** The time stamp pattern matches the texts of the time stamp shape, with
    or without a newline after them. *)
Lemma match_timestamp_shape s :
  re_match timestamp_pattern s =
    shape_match timestamp_shape s
    || shape_match (timestamp_shape ++ [Lit LF]) s.
Proof.
  unfold re_match.
  let p := eval vm_compute in timestamp_pattern in
    change timestamp_pattern with p.
  let sh := eval vm_compute in timestamp_shape in
    change timestamp_shape with sh.
  change (exec (Bol :: ?p) true s) with (exec p true s).
  cbn [app]. do 60 (try exact_step).
  match goal with
  | |- context [exec [Eol] _ ?t] => destruct t as [|x [|x' t']]
  end; cbn; [done| |by rewrite andb_false_r].
  change 10 with LF. by destruct (x =? LF).
Qed.

Lemma match_timestamp s :
  last s ≠ Some LF → re_match timestamp_pattern s = true ↔ timestamp_range s.
Proof.
  intros Hlast. rewrite match_timestamp_shape, orb_true_iff.
  rewrite <- shape_match_timestamp. split; [|by left].
  intros [H|H]; [done|]. exfalso. apply Hlast.
  apply shape_match_app in H as (s1 & s2 & -> & _ & H).
  change [Lit LF] with (Lit <$> [LF]) in H.
  apply shape_match_lit in H as ->. apply last_snoc.
Qed.

(** ** The loop *)

Lemma clean_step_kept acc line :
  clean_step acc line = acc ++ option_list (kept line).
Proof.
  unfold clean_step, kept, rewrite_line.
  repeat case_bool_decide; try destruct (_ || _); simpl;
    by rewrite ?app_nil_r.
Qed.

Lemma fold_clean_step lines acc :
  fold_left clean_step lines acc = acc ++ omap kept lines.
Proof.
  revert acc. induction lines as [|l ls IH]; intros acc; simpl.
  - by rewrite app_nil_r.
  - rewrite IH, clean_step_kept, <- app_assoc. by destruct (kept l).
Qed.

Lemma clean_lines_omap lines : clean_lines lines = omap kept lines.
Proof. apply fold_clean_step. Qed.

Lemma kept_Some line l :
  kept line = Some l →
  l = rewrite_line line ∧ l ≠ [] ∧ strip line ≠ [] ∧
  re_match timestamp_pattern (strip line) = false ∧
  re_match seq_num_pattern (strip line) = false.
Proof.
  unfold kept. repeat case_bool_decide; try done;
    destruct (re_match timestamp_pattern (strip line)),
      (re_match seq_num_pattern (strip line)); simpl; try done.
  intros ?. by simplify_eq.
Qed.

(** The lines kept are some of the lines read, in their order, each
    rewritten on its own. *)
Lemma omap_kept_sublist lines :
  ∃ survivors, survivors `sublist_of` lines ∧
    omap kept lines = rewrite_line <$> survivors.
Proof.
  induction lines as [|l ls (sv & Hsub & IH)]; [by exists []|].
  change (omap kept (l :: ls))
    with (match kept l with
          | Some y => y :: omap kept ls
          | None => omap kept ls
          end).
  rewrite IH. destruct (kept l) as [l'|] eqn:E.
  - apply kept_Some in E as (-> & _). exists (l :: sv).
    split; [by apply sublist_skip|done].
  - exists sv. split; [by apply sublist_cons|done].
Qed.

Lemma rewrite_line_sublist line : rewrite_line line `sublist_of` line.
Proof.
  unfold rewrite_line, re_sub.
  etrans; [apply strip_sublist|].
  etrans; [apply sub_from_sublist|apply strip_sublist].
Qed.

Lemma rewrite_line_no_tag line : ¬ has_tag (rewrite_line line).
Proof.
  unfold rewrite_line, re_sub.
  eapply no_tag_sublist; [apply strip_sublist|apply sub_tag_no_tag].
Qed.

(** A line read from a file has no newline left once trimmed. *)
Lemma strip_read_line s line : line ∈ keepends s → LF ∉ strip line.
Proof.
  intros (body & Hb & [-> | ->])%keepends_line.
  - rewrite strip_snoc_space by done. intros H. apply Hb.
    eapply elem_of_sublist; [done|apply strip_sublist].
  - intros H. apply Hb. eapply elem_of_sublist; [done|apply strip_sublist].
Qed.

Lemma clean_lines_clean t :
  Forall clean_line (clean_lines (readlines t)).
Proof.
  rewrite clean_lines_omap. apply Forall_forall. intros l Hl.
  apply list_elem_of_omap in Hl as (line & Hline & Hk).
  apply kept_Some in Hk as (-> & Hne & _). unfold clean_line, readlines in *.
  split_and!; [done|apply strip_trimmed|apply rewrite_line_no_tag| |].
  - intros H. apply (strip_read_line _ _ Hline).
    eapply elem_of_sublist; [done|]. unfold rewrite_line, re_sub.
    etrans; [apply strip_sublist|apply sub_from_sublist].
  - intros H. apply (universal_newlines_no_CR t).
    eapply keepends_elem_of; [done|].
    eapply elem_of_sublist; [done|apply rewrite_line_sublist].
Qed.

Lemma clean_line_last l : clean_line l → last l ≠ Some LF.
Proof.
  intros (_ & _ & _ & HLF & _) H. apply HLF.
  apply last_Some in H as [l' ->]. apply elem_of_app. right. by left.
Qed.

(** A clean line that is neither a time stamp nor a number goes through
    the loop unchanged. *)
Lemma kept_clean l :
  clean_line l → ¬ timestamp_range l → ¬ purely_digits l →
  kept (l ++ [LF]) = Some l.
Proof.
  intros Hl Hts Hseq. pose proof (clean_line_last _ Hl) as Hlast.
  destruct Hl as (Hne & Htrim & Htag & _).
  unfold kept, rewrite_line, re_sub.
  rewrite strip_snoc_space by done. rewrite (trimmed_strip l) by done.
  rewrite bool_decide_eq_false_2 by done.
  destruct (re_match timestamp_pattern l) eqn:E1.
  { by apply match_timestamp in E1. }
  destruct (re_match seq_num_pattern l) eqn:E2.
  { by apply match_seq_num in E2. }
  simpl. rewrite sub_tag_id by done. rewrite (trimmed_strip l) by done.
  by rewrite bool_decide_eq_false_2.
Qed.

Lemma cleaned_content_no_CR ls : Forall clean_line ls → CR ∉ cleaned_content ls.
Proof.
  intros Hls. unfold cleaned_content. rewrite elem_of_app.
  intros [H|H%list_elem_of_singleton]; [|done].
  apply elem_of_join_LF in H as [H|(l & Hl & Hc)]; [done|].
  rewrite Forall_forall in Hls. by destruct (Hls l Hl) as (_ & _ & _ & _ & ?).
Qed.

Lemma readlines_cleaned_content ls :
  ls ≠ [] → Forall clean_line ls →
  readlines (cleaned_content ls) = (λ l, l ++ [LF]) <$> ls.
Proof.
  intros Hne Hls. unfold readlines.
  rewrite universal_newlines_id by by apply cleaned_content_no_CR.
  apply keepends_cleaned_content; [done|].
  eapply Forall_impl; [done|]. by intros l (_ & _ & _ & ? & _).
Qed.

(** The loop leaves its own output as it is, as long as no line of it is a
    time stamp or a number. *)
Lemma clean_lines_fixed ls :
  ls ≠ [] → Forall clean_line ls →
  Forall (λ l, ¬ timestamp_range l ∧ ¬ purely_digits l) ls →
  clean_lines (readlines (cleaned_content ls)) = ls.
Proof.
  intros Hne Hls Hnot. rewrite readlines_cleaned_content by done.
  rewrite clean_lines_omap. clear Hne.
  induction Hls as [|l ls Hl Hls IH]; [done|].
  apply Forall_cons in Hnot as [[Hts Hseq] Hnot].
  cbn [fmap list_fmap omap list_omap].
  rewrite kept_clean by done. f_equal. by apply IH.
Qed.

(** ** [clean_srt_file] *)

(** A call either rewrites the file with what the loop kept, or fails and
    leaves the files as they are; it does not raise. *)
Lemma clean_srt_file_run filename w :
  ∃ out,
    clean_srt_file filename w =
      match fs w !! filename with
      | Some (File (Text t) false) =>
          let cleaned_lines := clean_lines (readlines t) in
          if bool_decide (cleaned_lines = []) then (Return false, printed out w)
          else
            (Return true,
             printed out
               (set_fs (<[filename := File (Text (cleaned_content cleaned_lines))
                                        false]> (fs w)) w))
      | _ => (Return false, printed out w)
      end.
Proof.
  unfold clean_srt_file, bind, try_except, read_lines, read_text, write_text,
    bind, ret, print.
  cbn [fs printed]. destruct (fs w !! filename) as [[d imm]|] eqn:Hf.
  - destruct d as [t|n]; cbn [data].
    + change (keepends (universal_newlines t)) with (readlines t).
      cbn zeta. case_bool_decide as Hls.
      * eexists. unfold printed. cbn. rewrite <- app_assoc. by destruct imm.
      * cbn [fs printed]. rewrite Hf. cbn. destruct imm.
        -- eexists. unfold printed. cbn. by rewrite <- app_assoc.
        -- eexists. unfold printed, set_fs. cbn. by rewrite <- app_assoc.
    + eexists. unfold printed. cbn. by rewrite <- app_assoc.
  - eexists. unfold printed. cbn. by rewrite <- app_assoc.
Qed.

(** A successful call, read backwards. *)
Lemma clean_srt_file_true filename w w' :
  clean_srt_file filename w = (Return true, w') →
  ∃ t,
    fs w !! filename = Some (File (Text t) false) ∧
    clean_lines (readlines t) ≠ [] ∧
    fs w' = <[filename := File (Text (cleaned_content (clean_lines (readlines t))))
                            false]> (fs w).
Proof.
  destruct (clean_srt_file_run filename w) as [out ->].
  destruct (fs w !! filename) as [[[t|n] [|]]|]; try done.
  cbn zeta. case_bool_decide; [done|]. intros [= <-]. by exists t.
Qed.

Lemma re_match_timestamp_head c r :
  isdecimal c = false → re_match timestamp_pattern (c :: r) = false.
Proof.
  intros Hc. rewrite match_timestamp_shape.
  cbn [timestamp_shape clock_shape replicate app shape_match cset_mem].
  by rewrite Hc.
Qed.

Lemma re_match_seq_num_head c r :
  isdecimal c = false → re_match seq_num_pattern (c :: r) = false.
Proof.
  intros Hc. unfold re_match, seq_num_pattern.
  change (exec [Bol; Rep Digit 1 None; Eol] true (c :: r))
    with (exec [Rep Digit 1 None; Eol] true (c :: r)).
  rewrite exec_rep. cbn [greedy cset_mem]. by rewrite Hc.
Qed.

(** What the loop drops on sight: blank lines, time stamps, numbers. *)
Lemma kept_filtered line :
  strip line = [] ∨ timestamp_range (strip line) ∨ purely_digits (strip line) →
  kept line = None.
Proof.
  unfold kept. intros [H|[H|H]].
  - by rewrite bool_decide_eq_true_2.
  - apply match_timestamp in H; [|apply strip_last_not_LF].
    rewrite H. by case_bool_decide.
  - apply match_seq_num in H; [|apply strip_last_not_LF].
    rewrite H, orb_true_r. by case_bool_decide.
Qed.

Lemma kept_tags_only line : tags_only (strip line) → kept line = None.
Proof.
  intros H. unfold kept, rewrite_line, re_sub.
  rewrite sub_tags_only by done.
  repeat case_bool_decide; try done. by destruct (_ || _).
Qed.

Lemma join_last ls :
  ls ≠ [] → Forall clean_line ls → last (join [LF] ls) ≠ Some LF.
Proof.
  intros Hne Hls. induction Hls as [|l ls Hl Hls IH]; [done|].
  destruct ls as [|l' ls']; [by apply clean_line_last|].
  rewrite join_cons by done. rewrite !last_app.
  destruct (last (join [LF] (l' :: ls'))) as [c|] eqn:E.
  - intros [= ->]. by apply IH.
  - exfalso. apply last_None in E.
    apply Forall_cons in Hls as [(Hl' & _) _].
    destruct l' as [|c l']; [done|]. by destruct ls'.
Qed.

(** * The claims about the cleaner *)

(** C1 (as amended).  On the example of the specification, with its [...]
    line taken as it is, the cleaner succeeds and writes back
    [Hello world\n...\nGoodbye\n]: the dots are neither blank, nor a time
    stamp, nor a number, so that line stays. *)
Theorem clean_example filename w :
  fs w !! filename = Some (File (Text example_srt) false) →
  ∃ w',
    clean_srt_file filename w = (Return true, w') ∧
    fs w' = <[filename := File (Text example_cleaned) false]> (fs w).
Proof.
  intros Hf. destruct (clean_srt_file_run filename w) as [out ->].
  rewrite Hf. eexists. split; [reflexivity|]. done.
Qed.

(** C2.  A line made of markup tags only leaves nothing in the output:
    the loop appends nothing for it, and the cleaned lines are those of the
    input without that line.  When the line is not blank it goes past the
    filters of blank lines, time stamps and numbers; it is the removal of
    the tags, applied afterwards, that empties it. *)
Theorem tags_only_line_removed line :
  tags_only (strip line) →
  (∀ cleaned_lines, clean_step cleaned_lines line = cleaned_lines) ∧
  (∀ before after,
     clean_lines (before ++ line :: after) = clean_lines (before ++ after)) ∧
  (strip line ≠ [] →
     re_match timestamp_pattern (strip line) = false ∧
     re_match seq_num_pattern (strip line) = false ∧
     re_sub tag_pattern [] (strip line) = []).
Proof.
  intros Htags. pose proof (kept_tags_only _ Htags) as Hk. split_and!.
  - intros acc. by rewrite clean_step_kept, Hk, app_nil_r.
  - intros before after. rewrite !clean_lines_omap, !omap_app.
    cbn [omap list_omap]. by rewrite Hk.
  - intros Hne. split_and!; [| |by apply sub_tags_only].
    + destruct Htags as [|t rest (body & _ & ->) _]; [done|].
      by apply re_match_timestamp_head.
    + destruct Htags as [|t rest (body & _ & ->) _]; [done|].
      by apply re_match_seq_num_head.
Qed.

(** C4.  When every line of the file is blank once trimmed, a time stamp
    range or digits only, the cleaner returns [False] and the files are what
    they were. *)
Theorem clean_nothing_left filename w t imm :
  fs w !! filename = Some (File (Text t) imm) →
  Forall (λ line, strip line = [] ∨ timestamp_range (strip line)
                  ∨ purely_digits (strip line)) (readlines t) →
  ∃ w', clean_srt_file filename w = (Return false, w') ∧ fs w' = fs w.
Proof.
  intros Hf Hlines. destruct (clean_srt_file_run filename w) as [out ->].
  rewrite Hf. assert (clean_lines (readlines t) = []) as ->.
  { rewrite clean_lines_omap.
    induction Hlines as [|l ls Hl _ IH]; [done|].
    cbn [omap list_omap]. by rewrite (kept_filtered l Hl). }
  exists (printed out w). by destruct imm.
Qed.

(** A line that is not blank, not a time stamp range and not digits only
    gets to the removal of tags; it is appended unless that empties it. *)
Lemma clean_step_past_filters cleaned_lines line :
  strip line ≠ [] → ¬ timestamp_range (strip line) →
  ¬ purely_digits (strip line) →
  clean_step cleaned_lines line =
    if bool_decide (rewrite_line line = []) then cleaned_lines
    else cleaned_lines ++ [rewrite_line line].
Proof.
  intros Hne Hts Hseq. rewrite clean_step_kept. unfold kept.
  rewrite bool_decide_eq_false_2 by done.
  destruct (re_match timestamp_pattern (strip line)) eqn:E1.
  { by apply match_timestamp in E1; [|apply strip_last_not_LF]. }
  destruct (re_match seq_num_pattern (strip line)) eqn:E2.
  { by apply match_seq_num in E2; [|apply strip_last_not_LF]. }
  cbn [orb]. case_bool_decide; [apply app_nil_r|done].
Qed.

(** C7.  The time stamp filter of the cleaner drops a trimmed line exactly
    when the whole line is [HH:MM:SS,mmm --> HH:MM:SS,mmm].  The pattern
    matches those lines and no others; the loop appends nothing for a line
    that matches; a line that does not match goes on to the removal of
    tags, so that, blank lines, numbers and lines made of tags apart, the
    loop drops a line if and only if it is a time stamp range.  Hours of
    one digit, a period for the comma, text around the range or a shorter
    arrow do not match, and the loop keeps such lines. *)
Theorem timestamp_filter_exact :
  (∀ line,
     re_match timestamp_pattern (strip line) = true ↔
     timestamp_range (strip line)) ∧
  (∀ cleaned_lines line,
     timestamp_range (strip line) →
     clean_step cleaned_lines line = cleaned_lines) ∧
  (∀ cleaned_lines line,
     strip line ≠ [] → ¬ timestamp_range (strip line) →
     ¬ purely_digits (strip line) →
     clean_step cleaned_lines line =
       if bool_decide (rewrite_line line = []) then cleaned_lines
       else cleaned_lines ++ [rewrite_line line]) ∧
  (∀ cleaned_lines line,
     strip line ≠ [] → ¬ purely_digits (strip line) →
     rewrite_line line ≠ [] →
     (clean_step cleaned_lines line = cleaned_lines ↔
      timestamp_range (strip line))) ∧
  (re_match timestamp_pattern
     (strip (txt "0:00:01,000 --> 00:00:02,000")) = false ∧
   re_match timestamp_pattern
     (strip (txt "00:00:01.000 --> 00:00:02.000")) = false ∧
   re_match timestamp_pattern
     (strip (txt "at 00:00:01,000 --> 00:00:02,000 ")) = false ∧
   re_match timestamp_pattern
     (strip (txt "00:00:01,000 --> 00:00:02,000 end")) = false ∧
   re_match timestamp_pattern
     (strip (txt "00:00:01,000 -> 00:00:02,000")) = false) ∧
  (clean_step [] (txt "0:00:01,000 --> 00:00:02,000")
     = [txt "0:00:01,000 --> 00:00:02,000"] ∧
   clean_step [] (txt "00:00:01.000 --> 00:00:02.000")
     = [txt "00:00:01.000 --> 00:00:02.000"] ∧
   clean_step [] (txt "at 00:00:01,000 --> 00:00:02,000 ")
     = [txt "at 00:00:01,000 --> 00:00:02,000"] ∧
   clean_step [] (txt "00:00:01,000 --> 00:00:02,000 end")
     = [txt "00:00:01,000 --> 00:00:02,000 end"] ∧
   clean_step [] (txt "00:00:01,000 -> 00:00:02,000")
     = [txt "00:00:01,000 -> 00:00:02,000"]).
Proof.
  split_and!; [| | | |by vm_compute..].
  - intros line. apply match_timestamp, strip_last_not_LF.
  - intros acc line Hts.
    rewrite clean_step_kept, (kept_filtered line) by auto.
    apply app_nil_r.
  - apply clean_step_past_filters.
  - intros acc line Hne Hseq Hkept. split.
    + intros Hdrop. destruct (re_match timestamp_pattern (strip line)) eqn:E.
      { by apply match_timestamp in E; [|apply strip_last_not_LF]. }
      assert (¬ timestamp_range (strip line)) as Hts.
      { intros H. apply match_timestamp in H; [|apply strip_last_not_LF].
        congruence. }
      rewrite clean_step_past_filters in Hdrop by done.
      rewrite bool_decide_eq_false_2 in Hdrop by done.
      apply (f_equal length) in Hdrop. rewrite length_app in Hdrop.
      simpl in Hdrop. lia.
    + intros Hts.
      rewrite clean_step_kept, (kept_filtered line) by auto.
      apply app_nil_r.
Qed.

(** C8.  The lines written are lines of the input in their order, each one
    trimmed and freed of its tags on its own: the loop drops lines and
    rewrites the others in place. *)
Theorem clean_keeps_order :
  (∀ lines, ∃ survivors,
     survivors `sublist_of` lines ∧
     clean_lines lines = rewrite_line <$> survivors) ∧
  (∀ filename w w',
     clean_srt_file filename w = (Return true, w') →
     ∃ t survivors,
       fs w !! filename = Some (File (Text t) false) ∧
       survivors `sublist_of` readlines t ∧
       fs w' !! filename =
         Some (File (Text (cleaned_content (rewrite_line <$> survivors)))
                 false)).
Proof.
  split.
  - intros lines. rewrite clean_lines_omap. apply omap_kept_sublist.
  - intros filename w w' (t & Hf & _ & ->)%clean_srt_file_true.
    destruct (omap_kept_sublist (readlines t)) as (sv & Hsub & E).
    exists t, sv. split_and!; [done..|].
    by rewrite lookup_insert_eq, clean_lines_omap, E.
Qed.

(** C10.  After a successful cleaning the file is its lines, each followed
    by one newline; no line is empty, none begins or ends with whitespace,
    and the content ends with one newline and no more. *)
Theorem cleaned_file_shape filename w w' :
  clean_srt_file filename w = (Return true, w') →
  ∃ cleaned_lines,
    fs w' !! filename = Some (File (Text (cleaned_content cleaned_lines)) false) ∧
    readlines (cleaned_content cleaned_lines) = (λ l, l ++ [LF]) <$> cleaned_lines ∧
    Forall (λ l, l ≠ [] ∧ trimmed l) cleaned_lines ∧
    ∃ body,
      cleaned_content cleaned_lines = body ++ [LF] ∧
      body ≠ [] ∧ last body ≠ Some LF.
Proof.
  intros (t & Hf & Hne & ->)%clean_srt_file_true.
  pose proof (clean_lines_clean t) as Hclean.
  exists (clean_lines (readlines t)). split_and!.
  - by rewrite lookup_insert_eq.
  - by apply readlines_cleaned_content.
  - eapply Forall_impl; [done|]. by intros l (? & ? & _).
  - exists (join [LF] (clean_lines (readlines t))). split_and!; [done| |].
    + destruct (clean_lines (readlines t)) as [|l ls]; [done|].
      apply Forall_cons in Hclean as [(Hl & _) _].
      destruct l; [done|]. by destruct ls.
    + by apply join_last.
Qed.

(** C3 (as amended).  After a successful cleaning no line of the file has a
    markup tag; and when none of its lines is a time stamp range or digits
    only, cleaning the file again succeeds and leaves the content as it
    is. *)
Theorem clean_again filename w w' :
  clean_srt_file filename w = (Return true, w') →
  ∃ cleaned_lines,
    fs w' !! filename = Some (File (Text (cleaned_content cleaned_lines)) false) ∧
    readlines (cleaned_content cleaned_lines) = (λ l, l ++ [LF]) <$> cleaned_lines ∧
    Forall (λ l, ¬ has_tag l) cleaned_lines ∧
    (Forall (λ l, ¬ timestamp_range l ∧ ¬ purely_digits l) cleaned_lines →
     ∃ w'', clean_srt_file filename w' = (Return true, w'') ∧ fs w'' = fs w').
Proof.
  intros (t & Hf & Hne & Hw')%clean_srt_file_true.
  pose proof (clean_lines_clean t) as Hclean.
  exists (clean_lines (readlines t)). split_and!.
  - by rewrite Hw', lookup_insert_eq.
  - by apply readlines_cleaned_content.
  - eapply Forall_impl; [done|]. by intros l (_ & _ & ? & _).
  - intros Hnot. destruct (clean_srt_file_run filename w') as [out ->].
    rewrite Hw', lookup_insert_eq. cbn zeta.
    rewrite clean_lines_fixed by done.
    rewrite bool_decide_eq_false_2 by done.
    eexists. split; [done|]. cbn. by rewrite insert_insert_eq.
Qed.

(** * Further properties of the cleaner *)

Lemma sub_from_tag_bos repl b b' n s :
  sub_from tag_pattern repl b n s = sub_from tag_pattern repl b' n s.
Proof.
  destruct s as [|c r]; [done|]. cbn [sub_from].
  by rewrite (exec_bos_irrel tag_pattern b b').
Qed.

Lemma sub_tag_no_lt b pre s :
  lt_sign ∉ pre →
  sub_from tag_pattern [] b 0 (pre ++ s) = pre ++ sub_from tag_pattern [] false 0 s.
Proof.
  revert b. induction pre as [|c pre IH]; intros b Hpre.
  { apply sub_from_tag_bos. }
  apply not_elem_of_cons in Hpre as [Hc Hpre].
  cbn [app sub_from]. rewrite exec_tag.
  destruct (N.eqb_spec c lt_sign) as [->|_]; [done|]. by rewrite IH.
Qed.

(** X5.  The substitution removes the first [<] together with everything
    up to the first [>] after it, other [<] included, and goes on with
    the text behind that [>]; what stands before the first [<] stays. *)
Theorem sub_tag_first pre body post :
  lt_sign ∉ pre → gt_sign ∉ body →
  re_sub tag_pattern [] (pre ++ lt_sign :: body ++ gt_sign :: post)
  = pre ++ re_sub tag_pattern [] post.
Proof.
  intros Hpre Hbody. unfold re_sub. rewrite sub_tag_no_lt by done. f_equal.
  replace (lt_sign :: body ++ gt_sign :: post)
    with (lt_sign :: (body ++ [gt_sign]) ++ post)
    by by rewrite <- app_assoc.
  rewrite sub_from_match; [apply sub_from_tag_bos|].
  rewrite exec_tag, N.eqb_refl. apply tag_end_Some.
  exists body. by rewrite <- app_assoc.
Qed.

(** X4.  A line of plain text goes to the output as it is, less the
    whitespace around it: when the trimmed line is not empty, has no tag and
    is neither a time stamp range nor digits only, the loop appends exactly
    the trimmed line. *)
Theorem plain_line_kept cleaned_lines line :
  strip line ≠ [] → ¬ has_tag (strip line) →
  ¬ timestamp_range (strip line) → ¬ purely_digits (strip line) →
  clean_step cleaned_lines line = cleaned_lines ++ [strip line].
Proof.
  intros Hne Htag Hts Hseq. rewrite clean_step_kept. f_equal.
  unfold kept, rewrite_line, re_sub.
  rewrite bool_decide_eq_false_2 by done.
  destruct (re_match timestamp_pattern (strip line)) eqn:E1.
  { by apply match_timestamp in E1; [|apply strip_last_not_LF]. }
  destruct (re_match seq_num_pattern (strip line)) eqn:E2.
  { by apply match_seq_num in E2; [|apply strip_last_not_LF]. }
  cbn [orb]. rewrite sub_tag_id by done. rewrite strip_idemp.
  by rewrite bool_decide_eq_false_2.
Qed.

(** X6.  Cleaning only deletes: every line of the output is a subsequence
    of the characters of the input line it comes from, these lines come in
    the order of the input, and there are no more of them than lines read. *)
Theorem cleaning_only_deletes lines :
  ∃ survivors,
    survivors `sublist_of` lines ∧
    Forall2 (λ out_line in_line, out_line `sublist_of` in_line)
      (clean_lines lines) survivors ∧
    (length (clean_lines lines) ≤ length lines)%nat.
Proof.
  destruct (omap_kept_sublist lines) as (sv & Hsub & E).
  rewrite clean_lines_omap, E. exists sv. split_and!; [done| |].
  - apply Forall2_fmap_l, Forall_Forall2_diag, Forall_forall.
    intros l _. apply rewrite_line_sublist.
  - rewrite length_fmap. by apply sublist_length.
Qed.

Lemma universal_newlines_to_crlf t :
  CR ∉ t → universal_newlines (to_crlf t) = t.
Proof.
  unfold to_crlf. induction t as [|c r IH]; [done|].
  intros [Hc Hr]%not_elem_of_cons. cbn [mbind list_bind].
  change (list_bind _ _ ?f r) with (r ≫= f).
  destruct (N.eqb_spec c LF) as [->|Hne].
  - cbn [app universal_newlines N.eqb]. change (CR =? CR) with true.
    change (LF =? LF) with true. cbv iota. by rewrite IH.
  - cbn [app universal_newlines].
    destruct (N.eqb_spec c CR) as [->|_]; [done|]. by rewrite IH.
Qed.

(** X7.  Line ends do not matter: a transcript saved with [\r\n] is read as
    the same lines as the one with [\n], so the cleaner keeps the same
    lines and writes the same content for both. *)
Theorem crlf_same_cleaning t :
  CR ∉ t →
  readlines (to_crlf t) = readlines t ∧
  cleaned_content (clean_lines (readlines (to_crlf t)))
  = cleaned_content (clean_lines (readlines t)).
Proof.
  intros Ht. assert (readlines (to_crlf t) = readlines t) as E.
  { unfold readlines.
    by rewrite universal_newlines_to_crlf, universal_newlines_id. }
  by rewrite E.
Qed.

(** X3.  [clean_srt_file] does not raise.  It returns [True] exactly when
    the file is writable UTF-8 text of which the loop keeps a line; when it
    returns [False] no file has changed; other files, the search path and
    the pending input are never touched. *)
Theorem clean_srt_file_returns filename w :
  ∃ ok w',
    clean_srt_file filename w = (Return ok, w') ∧
    (ok = true ↔
       ∃ t, fs w !! filename = Some (File (Text t) false) ∧
            clean_lines (readlines t) ≠ []) ∧
    (ok = false → fs w' = fs w) ∧
    (∀ other, other ≠ filename → fs w' !! other = fs w !! other) ∧
    path w' = path w ∧ stdin w' = stdin w.
Proof.
  destruct (clean_srt_file_run filename w) as [out ->].
  destruct (fs w !! filename) as [[[t|n] [|]]|] eqn:Hf;
    try (eexists false, _; split_and!; [done| |done..];
         split; [done|]; by intros (? & [=] & _)).
  cbn zeta. case_bool_decide as Hls.
  - eexists false, _. split_and!; [done| |done..].
    split; [done|]. intros (t' & [= <-] & ?). done.
  - eexists true, _. split_and!; [done| |done| |done..].
    + split; [|done]. intros _. by exists t.
    + intros other Hother. cbn. by rewrite lookup_insert_ne.
Qed.

(** * The run *)

(** Case analysis on the outcome of the next effectful step. *)
Ltac next_step :=
  match goal with
  | |- context [match ?m with (_, _) => _ end] =>
      destruct m as [[?|?] ?]; cbv beta iota; try reflexivity
  end.

(** [main] is its setup followed by the summary, the release of the model
    and the clean-up. *)
Lemma main_split w :
  main w =
    (main_setup ;;;
     (let* ok := summarize_transcript in
      if negb ok then sys_exit 1 else ret tt) ;;;
     stop_ollama_model ;;;
     cleanup ;;;
     print ([LF] ++ txt "Script finished successfully.")) w.
Proof. unfold main, main_setup, bind. repeat next_step. Qed.

Lemma printed_printed a b w : printed b (printed a w) = printed (a ++ b) w.
Proof. unfold printed. cbn. by rewrite app_assoc. Qed.

(** [run_command] raises [CommandError] and nothing else. *)
Lemma run_command_raises command_list step_name input_data w e w' :
  run_command command_list step_name input_data w = (Raise e, w') →
  ∃ msg, e = CommandError msg.
Proof.
  unfold run_command, bind, try_except, subprocess_run, print, raise, ret.
  destruct (popen _ _ _ _) as [[rc out err| | |] w1];
    [destruct (rc =? 0)%Z|..]; cbn [andb negb is_Exception];
    intros [= <- <-]; by eexists.
Qed.

(** A launch that exits with a status other than 0 ends in a
    [CommandError] whose message carries what the program wrote on its
    standard error and on its standard output. *)
Lemma run_command_nonzero command_list step_name input_data w rc out err w' :
  popen command_list input_data None
    (printed [txt "Running: " ++ join (txt " ") command_list] w)
    = (Exited rc out err, w') →
  rc ≠ 0%Z →
  ∃ head,
    run_command command_list step_name input_data w =
      (Raise (CommandError
         (head ++ txt "STDERR:" ++ [LF] ++ err ++ [LF]
          ++ txt "STDOUT:" ++ [LF] ++ out)), w').
Proof.
  intros Hp Hrc.
  unfold run_command, bind, try_except, subprocess_run, print, raise, ret.
  rewrite Hp. apply Z.eqb_neq in Hrc. rewrite Hrc. cbn [andb negb].
  exists ((txt "Error during " ++ step_name
           ++ txt ": Command exited with status " ++ str_of_Z rc ++ [LF])
          ++ txt "Command: " ++ join (txt " ") command_list ++ [LF]).
  by rewrite <- !app_assoc.
Qed.

Lemma stop_ollama_model_returns w :
  ∃ released w', stop_ollama_model w = (Return released, w').
Proof.
  unfold stop_ollama_model, bind, try_except. cbn [print].
  destruct (run_command _ _ _ _) as [[r|e] w1] eqn:E.
  - by eexists _, _.
  - apply run_command_raises in E as [msg ->]. by eexists _, _.
Qed.

Lemma cleanup_returns w : ∃ w', cleanup w = (Return tt, w').
Proof.
  unfold cleanup. destruct DELETE_TRANSCRIPT_AFTER_SUMMARY; [|by eexists].
  unfold try_except, bind, os_remove.
  destruct (fs w !! TRANSCRIPT_FILENAME) as [[d [|]]|]; by eexists.
Qed.

(** A runner that exits with a status other than 0 makes
    [summarize_transcript] print the error and return [False]. *)
Lemma summarize_runner_failed w t imm rc out err w' :
  fs w !! TRANSCRIPT_FILENAME = Some (File (Text t) imm) →
  strip (universal_newlines t) ≠ [] →
  popen ollama_command (Some (universal_newlines t)) None
    (runner_launch (universal_newlines t) w) = (Exited rc out err, w') →
  rc ≠ 0%Z →
  ∃ head,
    let msg := head ++ txt "STDERR:" ++ [LF] ++ err ++ [LF]
               ++ txt "STDOUT:" ++ [LF] ++ out in
    run_command ollama_command (txt "Summarization")
      (Some (universal_newlines t))
      (printed [txt "Sending transcript ("
                ++ str_of_Z (Z.of_nat (length (universal_newlines t)))
                ++ txt " bytes) to ollama via stdin..."] w)
      = (Raise (CommandError msg), w') ∧
    summarize_transcript w = (Return false, printed [msg] w').
Proof.
  intros Hf Hne Hp Hrc. unfold runner_launch in Hp.
  change (printed [?x; ?y] w) with (printed ([x] ++ [y]) w) in Hp.
  rewrite <- printed_printed in Hp.
  destruct (run_command_nonzero _ (txt "Summarization") _ _ _ _ _ _ Hp Hrc)
    as [head Hrun].
  exists head. cbn zeta. split; [done|].
  unfold summarize_transcript, try_except, bind at 1, read_text.
  rewrite Hf. cbn [data]. unfold bind at 1, ret at 1.
  rewrite bool_decide_eq_false_2 by done.
  unfold bind at 1. cbn [print]. unfold bind at 1. by rewrite Hrun.
Qed.

(** * The claims about the run *)


(** C6.  When the runner that [summarize_transcript] launches exits with a
    status other than 0, the [CommandError] that [run_command] raises
    carries the runner's standard error and standard output,
    [summarize_transcript] returns [False], and the process exits with
    status 1. *)
Theorem runner_failure_is_fatal w0 w t imm rc out err w' :
  main_setup w0 = (Return tt, w) →
  fs w !! TRANSCRIPT_FILENAME = Some (File (Text t) imm) →
  strip (universal_newlines t) ≠ [] →
  popen ollama_command (Some (universal_newlines t)) None
    (runner_launch (universal_newlines t) w) = (Exited rc out err, w') →
  rc ≠ 0%Z →
  ∃ head,
    let msg := head ++ txt "STDERR:" ++ [LF] ++ err ++ [LF]
               ++ txt "STDOUT:" ++ [LF] ++ out in
    run_command ollama_command (txt "Summarization")
      (Some (universal_newlines t))
      (printed [txt "Sending transcript ("
                ++ str_of_Z (Z.of_nat (length (universal_newlines t)))
                ++ txt " bytes) to ollama via stdin..."] w)
      = (Raise (CommandError msg), w') ∧
    summarize_transcript w = (Return false, printed [msg] w') ∧
    main w0 = (Raise (SystemExit 1), printed [msg] w') ∧
    exit_code (main w0).1 = 1%Z.
Proof.
  intros Hsetup Hf Hne Hp Hrc.
  destruct (summarize_runner_failed _ _ _ _ _ _ _ Hf Hne Hp Hrc)
    as (head & Hrun & Hsum).
  exists head. cbn zeta in *.
  assert (main w0 = (Raise (SystemExit 1), printed
    [head ++ txt "STDERR:" ++ [LF] ++ err ++ [LF] ++ txt "STDOUT:" ++ [LF]
     ++ out] w')) as Hmain.
  { rewrite main_split. unfold bind. by rewrite Hsetup, Hsum. }
  by rewrite Hmain.
Qed.

(** C9.  Once [summarize_transcript] has returned [True], [main] runs to
    its end and the process exits with status 0, whatever comes of the
    release of the model ([stop_ollama_model] may return [False]) and of the
    removal of the transcript. *)
Theorem release_does_not_gate w0 w :
  (main_setup ;;; summarize_transcript) w0 = (Return true, w) →
  ∃ released w1 w2,
    stop_ollama_model w = (Return released, w1) ∧
    cleanup w1 = (Return tt, w2) ∧
    main w0 =
      (Return tt, printed [[LF] ++ txt "Script finished successfully."] w2) ∧
    exit_code (main w0).1 = 0%Z.
Proof.
  intros H.
  destruct (stop_ollama_model_returns w) as (released & w1 & Hstop).
  destruct (cleanup_returns w1) as (w2 & Hclean).
  exists released, w1, w2.
  assert (main w0 =
    (Return tt, printed [[LF] ++ txt "Script finished successfully."] w2))
    as Hmain.
  { rewrite main_split. unfold bind in *.
    destruct (main_setup w0) as [[[]|e] w']; [|done].
    rewrite H. cbn [negb]. unfold ret at 1. by rewrite Hstop, Hclean. }
  by rewrite Hmain.
Qed.

(** * Further properties of the run *)

(** What [run_command] comes to, outcome by outcome of the launch. *)
Lemma run_command_run command_list step_name input_data w :
  ∃ msg,
    run_command command_list step_name input_data w =
      match popen command_list input_data None
              (printed [txt "Running: " ++ join (txt " ") command_list] w) with
      | (Exited 0 out err, w1) =>
          (Return (Completed 0 out err),
           printed [step_name ++ txt " completed successfully."] w1)
      | (_, w1) => (Raise (CommandError msg), w1)
      end.
Proof.
  unfold run_command, bind, try_except, subprocess_run, print, raise, ret.
  destruct (popen _ _ _ _) as [[rc out err| | |] w1];
    [destruct rc|..]; cbn [andb negb Z.eqb is_Exception];
    try (by eexists); by exists [].
Qed.

(** X2.  [run_command] returns only when the program has exited with
    status 0, and then hands back what the program wrote; any other end of
    the launch (another status, no such program, a timeout, a crash) comes
    out as a [CommandError], in the world the launch has left. *)
Theorem run_command_outcomes command_list step_name input_data w :
  let launched :=
    popen command_list input_data None
      (printed [txt "Running: " ++ join (txt " ") command_list] w) in
  match launched.1 with
  | Exited 0 out err =>
      run_command command_list step_name input_data w =
        (Return (Completed 0 out err),
         printed [step_name ++ txt " completed successfully."] launched.2)
  | _ =>
      ∃ msg,
        run_command command_list step_name input_data w =
          (Raise (CommandError msg), launched.2)
  end.
Proof.
  cbv zeta. destruct (run_command_run command_list step_name input_data w)
    as [msg ->].
  destruct (popen _ _ _ _) as [[[| |] out err| | |] w1]; cbn [fst snd];
    try done; by exists msg.
Qed.

(** X9.  When the downloader does not exit with status 0,
    [download_subtitles] prints the error and returns [False] at once: the
    world is the one the launch has left, plus that message; no file is
    looked at, renamed or removed. *)
Theorem download_fails_with_downloader youtube_url w :
  let launched :=
    popen (yt_dlp_command youtube_url) None None
      (printed [txt "Running: " ++ join (txt " ") (yt_dlp_command youtube_url)]
         w) in
  (∀ out err, launched.1 ≠ Exited 0 out err) →
  ∃ msg,
    download_subtitles youtube_url w = (Return false, printed [msg] launched.2).
Proof.
  cbv zeta. intros Hfail. unfold download_subtitles, try_except.
  unfold bind at 1.
  destruct (run_command_run (yt_dlp_command youtube_url)
              (txt "Subtitle Download (yt-dlp)") None w) as [msg ->].
  destruct (popen _ _ _ _) as [[[| |] out err| | |] w1]; cbn [fst snd] in *;
    try (by exists msg). by destruct (Hfail out err).
Qed.

(** Case analysis on the next effectful step or test that stands on its
    own, innermost first. *)
Ltac run_step :=
  match goal with
  | |- context [match ?m with (_, _) => _ end] =>
      lazymatch m with
      | context [match _ with (_, _) => _ end] => fail
      | context [if _ then _ else _] => fail
      | _ => destruct m as [[?|?] ?]; cbv beta iota; try reflexivity
      end
  | |- context [if ?b then _ else _] =>
      lazymatch b with
      | context [match _ with (_, _) => _ end] => fail
      | _ => destruct b; cbv beta iota; try reflexivity
      end
  end.

(** [download_subtitles] is the fetching and the verification under one
    handler of [CommandError]. *)
Lemma download_subtitles_split youtube_url w :
  download_subtitles youtube_url w =
    try_except (fetch_subtitles youtube_url ;;; verify_subtitles)
      (λ e, match e with
            | CommandError _ => Some (print (str_of_exn e) ;;; ret false)
            | _ => None
            end) w.
Proof.
  unfold download_subtitles, try_except.
  match goal with
  | |- match ?a with _ => _ end = match ?b with _ => _ end =>
      replace a with b; [done|]
  end.
  unfold fetch_subtitles, verify_subtitles, bind. repeat run_step.
Qed.

Lemma verify_subtitles_run w :
  ∃ out,
    verify_subtitles w =
      match fs w !! TRANSCRIPT_FILENAME with
      | None => (Return false, printed out w)
      | Some f =>
          if size_of (data f) =? 0 then
            (Return false,
             printed out
               (set_fs (if immutable f then fs w
                        else delete TRANSCRIPT_FILENAME (fs w)) w))
          else (Return true, w)
      end.
Proof.
  unfold verify_subtitles, bind, os_path_exists, os_path_getsize, os_remove,
    try_except, print, ret.
  destruct (fs w !! TRANSCRIPT_FILENAME) as [f|] eqn:Hf; rewrite ?Hf.
  - rewrite bool_decide_eq_true_2 by by eexists. cbn [negb]. rewrite Hf.
    destruct (size_of (data f) =? 0); [|by exists []].
    cbn [fs printed]. rewrite Hf.
    destruct (immutable f); cbn [is_OSError]; eexists;
      by rewrite printed_printed.
  - rewrite bool_decide_eq_false_2 by by intros [? [=]]. cbn [negb].
    eexists. by rewrite printed_printed.
Qed.

(** What [fetch_subtitles] can come to: the downloader failed, or the
    renaming was refused, or no file is left under the other name. *)
Lemma fetch_subtitles_cases youtube_url w r w1 :
  fetch_subtitles youtube_url w = (r, w1) →
  (∃ msg, r = Raise (CommandError msg)) ∨
  (r = Raise PermissionError ∧ is_Some (fs w1 !! "transcript.srt.en.srt")) ∨
  (r = Return tt ∧ fs w1 !! "transcript.srt.en.srt" = None).
Proof.
  unfold fetch_subtitles, bind.
  destruct (run_command _ _ _ w) as [[c|e] w2] eqn:Hrun.
  2:{ apply run_command_raises in Hrun as [msg ->]. intros [= <- <-].
      left. by exists msg. }
  unfold os_path_exists, os_rename, ret.
  destruct (fs w2 !! "transcript.srt.en.srt") as [f|] eqn:Hvar.
  - rewrite bool_decide_eq_true_2 by by eexists. rewrite Hvar.
    destruct (immutable f || _).
    + intros [= <- <-]. right. left. split; [done|]. by exists f.
    + intros [= <- <-]. right. right. split; [done|]. cbn.
      rewrite lookup_insert_ne by done. apply lookup_delete_eq.
  - rewrite bool_decide_eq_false_2 by by intros [? [=]].
    intros [= <- <-]. by right; right.
Qed.

(** X8.  When [download_subtitles] returns [True] the transcript is there
    under its own name and is not empty, and no file is left under the name
    with the language suffix. *)
Theorem download_true_postcondition youtube_url w w' :
  download_subtitles youtube_url w = (Return true, w') →
  (∃ f, fs w' !! TRANSCRIPT_FILENAME = Some f ∧ size_of (data f) ≠ 0) ∧
  fs w' !! "transcript.srt.en.srt" = None.
Proof.
  rewrite download_subtitles_split. unfold try_except, bind at 1.
  destruct (fetch_subtitles youtube_url w) as [r w1] eqn:Hfetch.
  apply fetch_subtitles_cases in Hfetch
    as [[msg ->]|[[-> _]|[-> Hvar]]]; [by intros [=]|by intros [=]|].
  destruct (verify_subtitles_run w1) as [out ->].
  destruct (fs w1 !! TRANSCRIPT_FILENAME) as [f|] eqn:Hf; [|by intros [=]].
  destruct (N.eqb_spec (size_of (data f)) 0); [by intros [=]|].
  intros [= <-]. split; [by exists f|done].
Qed.

(** X10.  The one exception that leaves [download_subtitles] is the
    refusal of the renaming: when the call raises, it raises
    [PermissionError], and the file with the language suffix is still
    there.  A failure of the downloader is never raised. *)
Theorem download_raises_only_rename youtube_url w e w' :
  download_subtitles youtube_url w = (Raise e, w') →
  e = PermissionError ∧ is_Some (fs w' !! "transcript.srt.en.srt").
Proof.
  rewrite download_subtitles_split. unfold try_except, bind at 1.
  destruct (fetch_subtitles youtube_url w) as [r w1] eqn:Hfetch.
  apply fetch_subtitles_cases in Hfetch
    as [[msg ->]|[[-> Hvar]|[-> _]]].
  - by intros [=].
  - by intros [= <- <-].
  - destruct (verify_subtitles_run w1) as [out ->].
    destruct (fs w1 !! TRANSCRIPT_FILENAME) as [f|]; [|by intros [=]].
    by destruct (size_of (data f) =? 0).
Qed.

(** What [summarize_transcript] comes to. *)
Lemma summarize_transcript_run w :
  ∃ msg,
    summarize_transcript w =
      match fs w !! TRANSCRIPT_FILENAME with
      | Some (File (Text t) _) =>
          let content := universal_newlines t in
          if bool_decide (strip content = []) then
            (Return false, printed [msg] w)
          else
            match popen ollama_command (Some content) None
                    (runner_launch content w) with
            | (Exited 0 out err, w1) =>
                (Return true,
                 printed [txt "Summarization" ++ txt " completed successfully.";
                          [LF] ++ txt "--- Summary ---";
                          strip out;
                          txt "---------------"] w1)
            | (_, w1) => (Return false, printed [msg] w1)
            end
      | _ => (Return false, printed [msg] w)
      end.
Proof.
  unfold summarize_transcript, try_except. unfold bind at 1, read_text.
  destruct (fs w !! TRANSCRIPT_FILENAME) as [[[t|n] imm]|];
    [|by eexists..]. cbn [data]. cbn zeta.
  case_bool_decide as Hblank; [by eexists|].
  unfold bind at 1. cbn [print]. unfold bind at 1.
  match goal with
  | |- context [run_command ?c ?s ?i ?w0] =>
      destruct (run_command_run c s i w0) as [msg ->]
  end.
  rewrite printed_printed. change ([?x] ++ [?y]) with [x; y].
  fold (runner_launch (universal_newlines t) w).
  destruct (popen _ _ _ _) as [[[| |] out err| | |] w1];
    try (by exists msg).
  exists []. unfold bind, print, ret. cbn [proc_stdout].
  by rewrite !printed_printed.
Qed.

Lemma summarize_transcript_total w :
  ∃ ok w', summarize_transcript w = (Return ok, w').
Proof.
  destruct (summarize_transcript_run w) as [msg ->].
  destruct (fs w !! TRANSCRIPT_FILENAME) as [[[t|n] imm]|];
    [|by eexists _, _..].
  cbn zeta. case_bool_decide; [by eexists _, _|].
  destruct (popen _ _ _ _) as [[[| |] out err| | |] w1]; by eexists _, _.
Qed.

(** X11.  [summarize_transcript] does not raise: whatever happens to the
    file or to the runner, it returns a boolean.  When there is no
    transcript to read as text, or the transcript is blank, it returns
    [False] after one message and the runner is not launched. *)
Theorem summarize_transcript_returns w :
  ∃ ok w',
    summarize_transcript w = (Return ok, w') ∧
    ((∀ t imm, fs w !! TRANSCRIPT_FILENAME = Some (File (Text t) imm) →
               strip (universal_newlines t) = []) →
     ok = false ∧ ∃ msg, w' = printed [msg] w).
Proof.
  destruct (summarize_transcript_run w) as [msg ->].
  destruct (fs w !! TRANSCRIPT_FILENAME) as [[[t|n] imm]|] eqn:Hf;
    [|eexists _, _; split; [done|]; intros _; split; [done|by exists msg]..].
  cbn zeta. case_bool_decide as Hblank.
  { eexists _, _. split; [done|]. intros _. split; [done|by exists msg]. }
  destruct (popen _ _ _ _) as [[[| |] out err| | |] w1];
    eexists _, _; (split; [done|]); intros H; by destruct Hblank, (H t imm).
Qed.

(** X12.  When the runner exits with status 0, [summarize_transcript]
    returns [True] and prints, after the note that the step is complete,
    the summary between its two markers: the standard output of the runner,
    trimmed.  The runner was given the whole transcript on its standard
    input. *)
Theorem summarize_prints_summary w t imm out err w' :
  fs w !! TRANSCRIPT_FILENAME = Some (File (Text t) imm) →
  strip (universal_newlines t) ≠ [] →
  popen ollama_command (Some (universal_newlines t)) None
    (runner_launch (universal_newlines t) w) = (Exited 0 out err, w') →
  summarize_transcript w =
    (Return true,
     printed [txt "Summarization" ++ txt " completed successfully.";
              [LF] ++ txt "--- Summary ---";
              strip out;
              txt "---------------"] w').
Proof.
  intros Hf Hne Hp. destruct (summarize_transcript_run w) as [msg ->].
  rewrite Hf. cbn zeta. rewrite bool_decide_eq_false_2 by done.
  by rewrite Hp.
Qed.

Lemma rstrip_nil s : rstrip s = [] → Forall (λ c, isspace c = true) s.
Proof.
  induction s as [|c r IH]; [done|]. simpl.
  destruct (rstrip r); [|done].
  destruct (isspace c) eqn:Hc; [|done]. intros _. by constructor; [|apply IH].
Qed.

Lemma strip_nil s : strip s = [] → Forall (λ c, isspace c = true) s.
Proof.
  unfold strip. intros H%rstrip_nil.
  induction s as [|c r IH]; [done|]. simpl in H.
  destruct (isspace c) eqn:Hc.
  - constructor; [done|by apply IH].
  - apply Forall_cons in H as [H _]. congruence.
Qed.

Lemma cleaned_content_not_blank ls :
  ls ≠ [] → Forall clean_line ls → strip (cleaned_content ls) ≠ [].
Proof.
  intros Hne Hls H%strip_nil. destruct ls as [|l ls]; [done|].
  apply Forall_cons in Hls as [(Hl & [Hhead _] & _) _].
  destruct l as [|c l]; [done|]. pose proof (Hhead c eq_refl) as Hc.
  rewrite Forall_forall in H. rewrite H in Hc; [done|].
  unfold cleaned_content. apply elem_of_app. left.
  destruct ls; simpl; by left.
Qed.

(** X16.  After a successful cleaning the summary has something to work
    on: [summarize_transcript] does not stop at its blank test, it hands
    the runner the content of the file exactly as it was written, and its
    result is [True] or [False] as the runner exits with status 0 or not. *)
Theorem cleaned_transcript_is_summarized w w' :
  clean_srt_file TRANSCRIPT_FILENAME w = (Return true, w') →
  ∃ content,
    fs w' !! TRANSCRIPT_FILENAME = Some (File (Text content) false) ∧
    let launched :=
      popen ollama_command (Some content) None (runner_launch content w') in
    ∃ out,
      summarize_transcript w' =
        (Return match launched.1 with Exited 0 _ _ => true | _ => false end,
         printed out launched.2).
Proof.
  intros (t & Hf & Hne & Hw')%clean_srt_file_true.
  pose proof (clean_lines_clean t) as Hclean.
  exists (cleaned_content (clean_lines (readlines t))).
  assert (fs w' !! TRANSCRIPT_FILENAME =
    Some (File (Text (cleaned_content (clean_lines (readlines t)))) false))
    as Hf' by by rewrite Hw', lookup_insert_eq.
  split; [done|]. cbn zeta.
  destruct (summarize_transcript_run w') as [msg ->]. rewrite Hf'. cbn zeta.
  rewrite universal_newlines_id by by apply cleaned_content_no_CR.
  rewrite bool_decide_eq_false_2 by by apply cleaned_content_not_blank.
  destruct (popen _ _ _ _) as [[[| |] out err| | |] w1]; by eexists.
Qed.

(** X13.  [stop_ollama_model] does not raise, and it returns [True]
    exactly when [ollama stop] exits with status 0; no such program, a
    timeout or another status all give [False]. *)
Theorem stop_ollama_model_result w :
  ∃ banner out,
    let launched :=
      popen [txt "ollama"; txt "stop"; OLLAMA_MODEL] None None
        (printed banner w) in
    stop_ollama_model w =
      (Return match launched.1 with Exited 0 _ _ => true | _ => false end,
       printed out launched.2).
Proof.
  unfold stop_ollama_model, try_except. unfold bind at 1. cbn [print].
  unfold bind at 1.
  match goal with
  | |- context [run_command ?c ?s ?i ?w0] =>
      destruct (run_command_run c s i w0) as [msg Hrun]
  end.
  rewrite printed_printed in Hrun.
  match type of Hrun with
  | context [popen _ _ _ (printed ?l w)] => exists l
  end.
  cbn zeta. rewrite Hrun.
  destruct (popen _ _ _ _) as [[[| |] out err| | |] w1]; by eexists.
Qed.

(** X14.  [cleanup] does not raise.  With the deletion switched off it
    does nothing at all; switched on, it removes the transcript unless the
    system refuses, and then only warns.  No other file is touched. *)
Theorem cleanup_effect w :
  (DELETE_TRANSCRIPT_AFTER_SUMMARY = false → cleanup w = (Return tt, w)) ∧
  (DELETE_TRANSCRIPT_AFTER_SUMMARY = true →
   ∃ msg,
     cleanup w =
       (Return tt,
        printed [msg]
          (set_fs (if from_option immutable false (fs w !! TRANSCRIPT_FILENAME)
                   then fs w
                   else delete TRANSCRIPT_FILENAME (fs w)) w))).
Proof.
  unfold cleanup. split; intros ->; [done|].
  unfold try_except, bind, os_remove, print.
  destruct (fs w !! TRANSCRIPT_FILENAME) as [[d [|]]|] eqn:Hf;
    cbn [immutable from_option is_OSError].
  - eexists. f_equal.
  - by eexists.
  - eexists. f_equal. unfold printed, set_fs. cbn.
    by rewrite delete_id.
Qed.

Lemma check_command_exists_run command w :
  ∃ out,
    check_command_exists command w =
      if bool_decide (command ∈ path w) then (Return tt, w)
      else (Raise (SystemExit 1), printed out w).
Proof.
  unfold check_command_exists, bind, shutil_which, print, sys_exit, raise, ret.
  case_bool_decide; [by exists []|]. eexists. by rewrite printed_printed.
Qed.

(** X1.  When [yt-dlp] or [ollama] is not on the search path, [main] ends
    with [sys.exit(1)] before it asks for an address or launches anything:
    the world is the one it started in, plus what it has printed. *)
Theorem missing_prerequisite_exits w :
  "yt-dlp" ∉ path w ∨ "ollama" ∉ path w →
  ∃ out, main w = (Raise (SystemExit 1), printed out w).
Proof.
  intros Hmissing. unfold main. unfold bind at 1. cbn [print].
  unfold bind at 1.
  destruct (check_command_exists_run "yt-dlp"
              (printed [txt "Checking prerequisites..."] w)) as [out1 ->].
  cbn [path printed]. case_bool_decide as Hyt.
  2:{ eexists. by rewrite printed_printed. }
  unfold bind at 1.
  destruct (check_command_exists_run "ollama"
              (printed [txt "Checking prerequisites..."] w)) as [out2 ->].
  cbn [path printed]. case_bool_decide as Hol.
  - by destruct Hmissing.
  - eexists. by rewrite printed_printed.
Qed.

(** The probe of the service at the start of [main]: only a crash of the
    launch gets through. *)
Lemma probe_run w :
  ∃ msg,
    try_except
      (subprocess_run [txt "ollama"; txt "ps"] None true (Some 5) ;;;
       print (txt "ollama service appears to be running."))
      (λ e, match e with
            | CalledProcessError _ _ _ _ | FileNotFoundError | TimeoutExpired =>
                Some (print (txt "Warning: Could not confirm ollama service is running. Attempting to proceed..."))
            | _ => None
            end) w =
      match (popen [txt "ollama"; txt "ps"] None (Some 5) w).1 with
      | Crashed =>
          (Raise OtherException,
           (popen [txt "ollama"; txt "ps"] None (Some 5) w).2)
      | _ =>
          (Return tt,
           printed [msg] (popen [txt "ollama"; txt "ps"] None (Some 5) w).2)
      end.
Proof.
  unfold try_except, bind, subprocess_run, print.
  destruct (popen _ _ _ w) as [[rc out err| | |] w1]; cbn [fst snd];
    [destruct (rc =? 0)%Z|..]; cbn [andb negb];
    try (by eexists); by exists [].
Qed.

Lemma download_subtitles_exit youtube_url w e w' :
  download_subtitles youtube_url w = (Raise e, w') →
  exit_code (Raise e) = 1%Z.
Proof.
  rewrite download_subtitles_split. unfold try_except, bind at 1.
  destruct (fetch_subtitles youtube_url w) as [r w1] eqn:Hfetch.
  apply fetch_subtitles_cases in Hfetch as [[msg ->]|[[-> _]|[-> _]]].
  - by intros [=].
  - by intros [= <- <-].
  - destruct (verify_subtitles_run w1) as [out ->].
    destruct (fs w1 !! TRANSCRIPT_FILENAME) as [f|]; [|by intros [=]].
    by destruct (size_of (data f) =? 0).
Qed.

(** Whatever stops the setup, the exit status is 1. *)
Lemma main_setup_raises w0 e w :
  main_setup w0 = (Raise e, w) → exit_code (Raise e) = 1%Z.
Proof.
  unfold main_setup, bind. cbn [print].
  match goal with
  | |- context [check_command_exists "yt-dlp" ?wx] =>
      destruct (check_command_exists_run "yt-dlp" wx) as [o1 ->]
  end.
  case_bool_decide; [|by intros [= <- <-]].
  match goal with
  | |- context [check_command_exists "ollama" ?wx] =>
      destruct (check_command_exists_run "ollama" wx) as [o2 ->]
  end.
  case_bool_decide; [|by intros [= <- <-]].
  match goal with
  | |- context [try_except _ _ ?wx] =>
      destruct (probe_run wx) as [m E]; unfold bind in E; rewrite E; clear E;
      destruct (popen [txt "ollama"; txt "ps"] None (Some 5) wx) as [o w1]
  end.
  destruct o; cbn [fst snd]; [| | |by intros [= <- <-]].
  all: unfold input; cbn [stdin printed];
    (destruct (stdin w1) as [|line rest]; [by intros [= <- <-]|]);
    (case_bool_decide; [by intros [= <- <-]|]); unfold ret at 1;
    (destruct (download_subtitles _ _) as [[[|]|e1] w3] eqn:Hd;
      [|by intros [= <- <-]
       |intros [= <- <-]; by eapply download_subtitles_exit]);
    unfold ret at 1; cbn [negb];
    destruct (clean_srt_file_run TRANSCRIPT_FILENAME w3) as [? ->];
    (destruct (fs w3 !! TRANSCRIPT_FILENAME) as [[[t|n] [|]]|];
      try (by intros [= <- <-]));
    cbn zeta; case_bool_decide; by intros [= <- <-].
Qed.

(** X15.  The exit status of the process is 0 or 1, and it is 0 exactly
    when the setup has gone through and [summarize_transcript] has returned
    [True]: a missing program, no address, a failed download, an empty
    transcript or a failed summary all give 1, and nothing after the
    summary can. *)
Theorem main_exit_status w0 :
  (exit_code (main w0).1 = 0%Z ↔
   ∃ w, (main_setup ;;; summarize_transcript) w0 = (Return true, w)) ∧
  (exit_code (main w0).1 = 0%Z ∨ exit_code (main w0).1 = 1%Z).
Proof.
  destruct (main_setup w0) as [[[]|e] w1] eqn:Hsetup.
  - destruct (summarize_transcript_total w1) as (ok & w2 & Hsum).
    destruct ok.
    + destruct (stop_ollama_model_returns w2) as (released & w3 & Hstop).
      destruct (cleanup_returns w3) as (w4 & Hclean).
      assert (main w0 =
        (Return tt, printed [[LF] ++ txt "Script finished successfully."] w4))
        as ->.
      { rewrite main_split. unfold bind. rewrite Hsetup, Hsum. cbn [negb].
        unfold ret at 1. by rewrite Hstop, Hclean. }
      unfold bind. rewrite Hsetup, Hsum.
      split; [|by left]. split; [by exists w2|done].
    + assert (main w0 = (Raise (SystemExit 1), w2)) as ->.
      { rewrite main_split. unfold bind. by rewrite Hsetup, Hsum. }
      unfold bind. rewrite Hsetup, Hsum.
      split; [|by right]. split; [done|by intros [? [=]]].
  - assert (main w0 = (Raise e, w1)) as ->.
    { rewrite main_split. unfold bind. by rewrite Hsetup. }
    unfold bind. rewrite Hsetup. cbn [fst].
    rewrite (main_setup_raises _ _ _ Hsetup).
    split; [|by right]. split; [done|by intros [? [=]]].
Qed.

(** X17.  With both programs installed, when the user gives no address
    (the input is at its end, or the line is blank once trimmed), the
    process exits with status 1 and the downloader is never launched: the
    files are those the probe of the service has left. *)
Theorem no_url_exits w :
  "yt-dlp" ∈ path w → "ollama" ∈ path w →
  let w1 := (popen [txt "ollama"; txt "ps"] None (Some 5)
               (printed [txt "Checking prerequisites..."] w)).2 in
  (∀ line, head (stdin w1) = Some line → strip line = []) →
  exit_code (main w).1 = 1%Z ∧ fs (main w).2 = fs w1.
Proof.
  intros Hyt Hol. cbv zeta. unfold main, bind. cbn [print].
  match goal with
  | |- context [check_command_exists "yt-dlp" ?wx] =>
      destruct (check_command_exists_run "yt-dlp" wx) as [o1 ->]
  end.
  cbn [path printed]. rewrite bool_decide_eq_true_2 by done.
  match goal with
  | |- context [check_command_exists "ollama" ?wx] =>
      destruct (check_command_exists_run "ollama" wx) as [o2 ->]
  end.
  cbn [path printed]. rewrite bool_decide_eq_true_2 by done.
  fold (printed [txt "Checking prerequisites..."] w).
  destruct (probe_run (printed [txt "Checking prerequisites..."] w))
    as [m E].
  unfold bind in E. rewrite E. clear E.
  destruct (popen _ _ _ _) as [o w1]. cbn [fst snd]. intros Hin.
  assert (∀ out, stdin (printed out w1) = stdin w1) as Hstd by done.
  destruct o; [| | |by split]; unfold input; rewrite Hstd;
    (destruct (stdin w1) as [|line rest]; [by split|]);
    (rewrite bool_decide_eq_true_2 by (by apply Hin));
    by split.
Qed.

End Program.

(** * The claims at sample inputs *)

Lemma clean_example_witness :
  ∃ w',
    clean_srt_file ascii_only "transcript.srt"
      (one_file "transcript.srt" example_srt) = (Return true, w') ∧
    fs w' = <["transcript.srt" := File (Text example_cleaned) false]>
              (fs (one_file "transcript.srt" example_srt)).
Proof.
  apply (clean_example ascii_only "transcript.srt"
           (one_file "transcript.srt" example_srt)).
  reflexivity.
Defined.

(** C1 as the specification has it fails: the cleaner succeeds on the
    example, and what it writes keeps the line of dots. *)
Lemma clean_example_not_expected :
  let run := clean_srt_file ascii_only "transcript.srt"
               (one_file "transcript.srt" example_srt) in
  run.1 = Return true ∧
  fs run.2 !! "transcript.srt" = Some (File (Text example_cleaned) false) ∧
  example_cleaned ≠ example_expected.
Proof. by vm_compute. Qed.

Lemma tags_only_line_removed_witness :
  (∀ cleaned_lines,
     clean_step ascii_only cleaned_lines italic_line = cleaned_lines) ∧
  (∀ before after,
     clean_lines ascii_only (before ++ italic_line :: after)
     = clean_lines ascii_only (before ++ after)) ∧
  (strip italic_line ≠ [] →
     re_match ascii_only timestamp_pattern (strip italic_line) = false ∧
     re_match ascii_only seq_num_pattern (strip italic_line) = false ∧
     re_sub ascii_only tag_pattern [] (strip italic_line) = []).
Proof.
  apply (tags_only_line_removed ascii_only italic_line).
  change (strip italic_line)
    with ((lt_sign :: txt "i" ++ [gt_sign])
          ++ (lt_sign :: txt "/i" ++ [gt_sign]) ++ []).
  apply tags_only_cons; [|apply tags_only_cons; [|apply tags_only_nil]].
  - exists (txt "i"). split; [|reflexivity].
    apply (bool_decide_unpack _). by vm_compute.
  - exists (txt "/i"). split; [|reflexivity].
    apply (bool_decide_unpack _). by vm_compute.
Defined.

Lemma clean_again_witness :
  let w' := (clean_srt_file ascii_only "transcript.srt"
               (one_file "transcript.srt" example_srt)).2 in
  ∃ cleaned_lines,
    fs w' !! "transcript.srt"
      = Some (File (Text (cleaned_content cleaned_lines)) false) ∧
    readlines (cleaned_content cleaned_lines)
      = (λ l, l ++ [LF]) <$> cleaned_lines ∧
    Forall (λ l, ¬ has_tag l) cleaned_lines ∧
    (Forall (λ l, ¬ timestamp_range ascii_only l ∧ ¬ purely_digits ascii_only l)
       cleaned_lines →
     ∃ w'', clean_srt_file ascii_only "transcript.srt" w' = (Return true, w'')
            ∧ fs w'' = fs w').
Proof.
  apply (clean_again ascii_only "transcript.srt"
           (one_file "transcript.srt" example_srt)).
  by vm_compute.
Defined.

(** C3 as the specification has it fails: cleaning a caption that is a
    number between tags succeeds and leaves the number, a line of digits
    only; cleaning again drops that line, finds nothing left and fails. *)
Lemma clean_again_counterexample :
  let first := clean_srt_file ascii_only "transcript.srt"
                 (one_file "transcript.srt" bold_number_srt) in
  let second := clean_srt_file ascii_only "transcript.srt" first.2 in
  first.1 = Return true ∧
  fs first.2 !! "transcript.srt"
    = Some (File (Text (cleaned_content [txt "12"])) false) ∧
  purely_digits ascii_only (txt "12") ∧
  second.1 = Return false.
Proof.
  cbv zeta. split_and!; [by vm_compute..| |by vm_compute].
  split; [done|]. apply forallb_isdecimal. by vm_compute.
Qed.

Lemma clean_nothing_left_witness :
  ∃ w',
    clean_srt_file ascii_only "transcript.srt"
      (one_file "transcript.srt" noise_srt) = (Return false, w') ∧
    fs w' = fs (one_file "transcript.srt" noise_srt).
Proof.
  apply (clean_nothing_left ascii_only "transcript.srt"
           (one_file "transcript.srt" noise_srt) noise_srt false).
  - reflexivity.
  - let ls := eval vm_compute in (readlines noise_srt) in
      change (readlines noise_srt) with ls.
    repeat apply Forall_cons_2; [| | |apply Forall_nil_2].
    + right. right. split; [by vm_compute|].
      apply forallb_isdecimal. by vm_compute.
    + right. left. apply shape_match_timestamp. by vm_compute.
    + left. by vm_compute.
Defined.

Lemma timestamp_filter_exact_witness :
  let stamp := txt ("  00:00:01,000 --> 00:00:02,000 " ++ nl) in
  clean_step ascii_only [txt "Hello"] stamp = [txt "Hello"] ∧
  clean_step ascii_only [txt "Hello"] padded_line =
    (if bool_decide (rewrite_line ascii_only padded_line = [])
     then [txt "Hello"]
     else [txt "Hello"] ++ [rewrite_line ascii_only padded_line]) ∧
  (clean_step ascii_only [txt "Hello"] stamp = [txt "Hello"] ↔
   timestamp_range ascii_only (strip stamp)).
Proof.
  cbv zeta.
  destruct (timestamp_filter_exact ascii_only)
    as (_ & Hdrop & Hpass & Hiff & _).
  split_and!.
  - apply Hdrop. apply shape_match_timestamp. by vm_compute.
  - apply Hpass.
    + by vm_compute.
    + rewrite <- shape_match_timestamp. by vm_compute.
    + intros [_ H]. apply forallb_isdecimal in H. by vm_compute in H.
  - apply Hiff.
    + by vm_compute.
    + intros [_ H]. apply forallb_isdecimal in H. by vm_compute in H.
    + by vm_compute.
Defined.

Lemma clean_keeps_order_witness :
  let w' := (clean_srt_file ascii_only "transcript.srt"
               (one_file "transcript.srt" example_srt)).2 in
  ∃ t survivors,
    fs (one_file "transcript.srt" example_srt) !! "transcript.srt"
      = Some (File (Text t) false) ∧
    survivors `sublist_of` readlines t ∧
    fs w' !! "transcript.srt"
      = Some (File (Text (cleaned_content
                            (rewrite_line ascii_only <$> survivors))) false).
Proof.
  apply (proj2 (clean_keeps_order ascii_only) "transcript.srt"
           (one_file "transcript.srt" example_srt)).
  by vm_compute.
Defined.

Lemma cleaned_file_shape_witness :
  let w' := (clean_srt_file ascii_only "transcript.srt"
               (one_file "transcript.srt" example_srt)).2 in
  ∃ cleaned_lines,
    fs w' !! "transcript.srt"
      = Some (File (Text (cleaned_content cleaned_lines)) false) ∧
    readlines (cleaned_content cleaned_lines)
      = (λ l, l ++ [LF]) <$> cleaned_lines ∧
    Forall (λ l, l ≠ [] ∧ trimmed l) cleaned_lines ∧
    ∃ body,
      cleaned_content cleaned_lines = body ++ [LF] ∧
      body ≠ [] ∧ last body ≠ Some LF.
Proof.
  apply (cleaned_file_shape ascii_only "transcript.srt"
           (one_file "transcript.srt" example_srt)).
  by vm_compute.
Defined.



(** Before the file is verified [download_subtitles] renames it, outside
    any handler of [OSError]: a renaming that the system refuses ends the
    call with that exception.  The property above starts after this step. *)
Example rename_refused :
  let w := World {["transcript.srt.en.srt" := File (Text example_srt) true]}
             ∅ [] [] in
  (download_subtitles idle (txt "https://youtu.be/x") w).1
    = Raise PermissionError.
Proof. by vm_compute. Qed.

Lemma runner_failure_is_fatal_witness :
  let w := (main_setup ascii_only failing_runner terminal).2 in
  ∃ head,
    let msg := head ++ txt "STDERR:" ++ [LF] ++ txt "boom" ++ [LF]
               ++ txt "STDOUT:" ++ [LF] ++ txt "partial" in
    run_command failing_runner ollama_command (txt "Summarization")
      (Some (universal_newlines example_cleaned))
      (printed [txt "Sending transcript ("
                ++ str_of_Z (Z.of_nat (length (universal_newlines example_cleaned)))
                ++ txt " bytes) to ollama via stdin..."] w)
      = (Raise (CommandError msg),
         runner_launch (universal_newlines example_cleaned) w) ∧
    summarize_transcript failing_runner w
      = (Return false,
         printed [msg] (runner_launch (universal_newlines example_cleaned) w)) ∧
    main ascii_only failing_runner false terminal
      = (Raise (SystemExit 1),
         printed [msg] (runner_launch (universal_newlines example_cleaned) w)) ∧
    exit_code (main ascii_only failing_runner false terminal).1 = 1%Z.
Proof.
  cbv zeta.
  apply (runner_failure_is_fatal ascii_only failing_runner false terminal
           (main_setup ascii_only failing_runner terminal).2
           example_cleaned false 3 (txt "partial") (txt "boom")).
  - by vm_compute.
  - by vm_compute.
  - by vm_compute.
  - by vm_compute.
  - done.
Defined.

Lemma release_does_not_gate_witness :
  let w := (bind (main_setup ascii_only failing_release) (λ _,
              summarize_transcript failing_release) terminal).2 in
  ∃ released w1 w2,
    stop_ollama_model failing_release w = (Return released, w1) ∧
    cleanup true w1 = (Return tt, w2) ∧
    main ascii_only failing_release true terminal =
      (Return tt, printed [[LF] ++ txt "Script finished successfully."] w2) ∧
    exit_code (main ascii_only failing_release true terminal).1 = 0%Z.
Proof.
  cbv zeta.
  apply (release_does_not_gate ascii_only failing_release true terminal).
  by vm_compute.
Defined.

(** In that run the release of the model did fail: [stop_ollama_model]
    returned [False], and the status is 0 all the same. *)
Example release_failed_exit_0 :
  let w := (bind (main_setup ascii_only failing_release) (λ _,
              summarize_transcript failing_release) terminal).2 in
  (stop_ollama_model failing_release w).1 = Return false ∧
  exit_code (main ascii_only failing_release false terminal).1 = 0%Z ∧
  exit_code (main ascii_only failing_release true terminal).1 = 0%Z.
Proof. by vm_compute. Qed.

(** * The further properties at sample inputs *)

Lemma sub_tag_first_witness :
  re_sub ascii_only tag_pattern []
    (txt "Hello " ++ lt_sign :: txt "b" ++ gt_sign :: txt "world</b>")
  = txt "Hello " ++ re_sub ascii_only tag_pattern [] (txt "world</b>").
Proof.
  apply (sub_tag_first ascii_only (txt "Hello ") (txt "b") (txt "world</b>"));
    apply (bool_decide_unpack _); by vm_compute.
Defined.

Lemma plain_line_kept_witness :
  clean_step ascii_only [] padded_line = [] ++ [strip padded_line].
Proof.
  apply (plain_line_kept ascii_only [] padded_line).
  - by vm_compute.
  - apply no_tag_iff. intros pre post E.
    assert (lt_sign ∉ strip padded_line) as Hno
      by (apply (bool_decide_unpack _); by vm_compute).
    destruct Hno. rewrite E. apply elem_of_app. right. by left.
  - rewrite <- shape_match_timestamp. by vm_compute.
  - intros [_ H]. apply forallb_isdecimal in H. by vm_compute in H.
Defined.

Lemma crlf_same_cleaning_witness :
  readlines (to_crlf example_srt) = readlines example_srt ∧
  cleaned_content (clean_lines ascii_only (readlines (to_crlf example_srt)))
  = cleaned_content (clean_lines ascii_only (readlines example_srt)).
Proof.
  apply (crlf_same_cleaning ascii_only example_srt).
  apply (bool_decide_unpack _). by vm_compute.
Defined.

Lemma download_fails_with_downloader_witness :
  ∃ msg,
    download_subtitles no_downloader (txt "https://youtu.be/x") terminal =
      (Return false,
       printed [msg]
         (no_downloader (yt_dlp_command (txt "https://youtu.be/x")) None None
            (printed [txt "Running: " ++ join (txt " ")
                        (yt_dlp_command (txt "https://youtu.be/x"))]
               terminal)).2).
Proof.
  apply (download_fails_with_downloader no_downloader
           (txt "https://youtu.be/x") terminal).
  by intros out err.
Defined.

Lemma download_true_postcondition_witness :
  let w' := (download_subtitles failing_runner (txt "https://youtu.be/x")
               terminal).2 in
  (∃ f, fs w' !! TRANSCRIPT_FILENAME = Some f ∧ size_of (data f) ≠ 0) ∧
  fs w' !! "transcript.srt.en.srt" = None.
Proof.
  apply (download_true_postcondition failing_runner
           (txt "https://youtu.be/x") terminal).
  by vm_compute.
Defined.

Lemma download_raises_only_rename_witness :
  let run := download_subtitles idle (txt "https://youtu.be/x")
               locked_variant in
  PermissionError = PermissionError ∧
  is_Some (fs run.2 !! "transcript.srt.en.srt").
Proof.
  apply (download_raises_only_rename idle (txt "https://youtu.be/x")
           locked_variant).
  by vm_compute.
Defined.

Lemma summarize_prints_summary_witness :
  summarize_transcript failing_release
    (one_file "transcript.srt" example_cleaned) =
    (Return true,
     printed [txt "Summarization" ++ txt " completed successfully.";
              [LF] ++ txt "--- Summary ---";
              strip (txt "A greeting and a farewell.");
              txt "---------------"]
       (runner_launch (universal_newlines example_cleaned)
          (one_file "transcript.srt" example_cleaned))).
Proof.
  apply (summarize_prints_summary failing_release
           (one_file "transcript.srt" example_cleaned) example_cleaned false
           (txt "A greeting and a farewell.") []).
  - reflexivity.
  - by vm_compute.
  - by vm_compute.
Defined.

Lemma cleaned_transcript_is_summarized_witness :
  let w' := (clean_srt_file ascii_only TRANSCRIPT_FILENAME
               (one_file "transcript.srt" example_srt)).2 in
  ∃ content,
    fs w' !! TRANSCRIPT_FILENAME = Some (File (Text content) false) ∧
    let launched :=
      failing_release ollama_command (Some content) None
        (runner_launch content w') in
    ∃ out,
      summarize_transcript failing_release w' =
        (Return match launched.1 with Exited 0 _ _ => true | _ => false end,
         printed out launched.2).
Proof.
  apply (cleaned_transcript_is_summarized ascii_only failing_release
           (one_file "transcript.srt" example_srt)).
  by vm_compute.
Defined.

Lemma cleanup_effect_witness :
  cleanup false (one_file "transcript.srt" example_cleaned)
    = (Return tt, one_file "transcript.srt" example_cleaned) ∧
  ∃ msg,
    cleanup true (one_file "transcript.srt" example_cleaned) =
      (Return tt,
       printed [msg]
         (set_fs (delete TRANSCRIPT_FILENAME
                    (fs (one_file "transcript.srt" example_cleaned)))
            (one_file "transcript.srt" example_cleaned))).
Proof.
  split.
  - by apply (proj1 (cleanup_effect false
                       (one_file "transcript.srt" example_cleaned))).
  - by apply (proj2 (cleanup_effect true
                       (one_file "transcript.srt" example_cleaned))).
Defined.

Lemma missing_prerequisite_exits_witness :
  ∃ out,
    main ascii_only idle false (one_file "transcript.srt" example_srt) =
      (Raise (SystemExit 1),
       printed out (one_file "transcript.srt" example_srt)).
Proof.
  apply (missing_prerequisite_exits ascii_only idle false
           (one_file "transcript.srt" example_srt)).
  left. apply not_elem_of_empty.
Defined.

Lemma no_url_exits_witness :
  exit_code (main ascii_only idle false silent_terminal).1 = 1%Z ∧
  fs (main ascii_only idle false silent_terminal).2
  = fs (idle [txt "ollama"; txt "ps"] None (Some 5)
          (printed [txt "Checking prerequisites..."] silent_terminal)).2.
Proof.
  apply (no_url_exits ascii_only idle false silent_terminal).
  - apply (bool_decide_unpack _). by vm_compute.
  - apply (bool_decide_unpack _). by vm_compute.
  - intros line [= <-]. by vm_compute.
Defined.
